(** * The chat widget controller of [templates/script.js]

    A shallow embedding of the page script: the two event handlers
    (the chat form's [submit] and the refresh button's [click]) and the
    helpers they call, over an explicit model of the page they mutate.

    - JavaScript strings are sequences of UTF-16 code units.
    - The DOM under [#chat-messages] is a forest of nodes; markup written
      through [innerHTML] is handed to the browser's fragment parser, which
      is a parameter of the development ([parseHTML]).
    - Handlers are written in a small state-and-exception monad; every
      platform call they make is also recorded, in order, in [calls].
    - An [async] handler is split at its [await]: the part that runs when
      the event fires, and the part that runs when the request settles.
    - Time is a logical clock in milliseconds; [setTimeout] registers a due
      time and nothing in the script ever cancels one.

    What is taken from the page and the browser, outside the script:
    - no element outside [#chat-messages] has the id [typing-indicator];
    - a disabled input takes no edits and a disabled button dispatches no
      click, while the form can be submitted at any time;
    - [fetch] does not throw when called, it settles later;
    - a timeout runs its callback when its due time is reached;
    - markup rendered through [innerHTML] runs no script and fires no event
      of its own. *)

From Stdlib Require Import List NArith Arith Bool String Ascii Lia.
Import ListNotations.

Set Implicit Arguments.
Set Warnings "-register-all".

(** ** Strings *)

Definition jsstring := list N.

Fixpoint js (s : string) : jsstring :=
  match s with
  | EmptyString => []
  | String a r => N_of_ascii a :: js r
  end.

Fixpoint jseqb (a b : jsstring) : bool :=
  match a, b with
  | [], [] => true
  | x :: a', y :: b' => N.eqb x y && jseqb a' b'
  | _, _ => false
  end.

(** ECMAScript [WhiteSpace] and [LineTerminator] code points, the ones
    [String.prototype.trim] strips. All of them are single code units. *)
Definition is_space (c : N) : bool :=
  existsb (N.eqb c)
    [9; 10; 11; 12; 13; 32; 160; 5760; 8232; 8233; 8239; 8287; 12288; 65279]%N
  || (N.leb 8192 c && N.leb c 8202).

Fixpoint trimStart (s : jsstring) : jsstring :=
  match s with
  | [] => []
  | c :: r => if is_space c then trimStart r else s
  end.

Definition trimEnd (s : jsstring) : jsstring := rev (trimStart (rev s)).

Definition trim (s : jsstring) : jsstring := trimEnd (trimStart s).

(** ** Completions: a value, or a thrown exception *)

Inductive exn :=
| TypeError
| SyntaxError
| AbortError
| OtherError (name : jsstring).

Inductive completion (A : Type) :=
| Normal (a : A)
| Throw (e : exn).
Arguments Normal {A} a.
Arguments Throw {A} e.

(** ** Parsed JSON values and the conversions the script applies to them *)

(** A number is kept by what the script can observe of it: whether it is
    zero (its truthiness) and its [Number::toString] text. *)
Record number := { num_zero : bool; num_text : jsstring }.

(** [JObj] lists the own properties of the parsed object; the first binding
    of a key is the property's value. *)
Inductive json :=
| JNull
| JBool (b : bool)
| JNum (n : number)
| JStr (s : jsstring)
| JArr (items : list json)
| JObj (props : list (jsstring * json)).

Fixpoint lookup (k : jsstring) (props : list (jsstring * json)) : option json :=
  match props with
  | [] => None
  | (k', v) :: r => if jseqb k' k then Some v else lookup k r
  end.

(** [data.name], for the two names the script reads ([response] and
    [message]): [None] is [undefined]. Reading a property of [null] throws;
    primitives and arrays have no property of these names. *)
Definition get_member (data : json) (name : jsstring) : completion (option json) :=
  match data with
  | JNull => Throw TypeError
  | JObj props => Normal (lookup name props)
  | _ => Normal None
  end.

(** [ToBoolean] *)
Definition truthy (v : option json) : bool :=
  match v with
  | None => false
  | Some JNull => false
  | Some (JBool b) => b
  | Some (JNum n) => negb (num_zero n)
  | Some (JStr s) => negb (jseqb s [])
  | Some (JArr _) => true
  | Some (JObj _) => true
  end.

(** [ToString]. An array joins its elements with commas ([null] elements
    give the empty string). A parsed object gives ["[object Object]"] through
    [Object.prototype.toString], unless it has an own [toString] property:
    that property is not callable and [valueOf] returns the object, so the
    conversion throws. *)
Fixpoint to_string (v : json) : completion jsstring :=
  match v with
  | JNull => Normal (js "null")
  | JBool true => Normal (js "true")
  | JBool false => Normal (js "false")
  | JNum n => Normal (num_text n)
  | JStr s => Normal s
  | JArr items =>
      (fix join (l : list json) : completion jsstring :=
         match l with
         | [] => Normal []
         | x :: r =>
             match (match x with JNull => Normal [] | _ => to_string x end) with
             | Throw e => Throw e
             | Normal xs =>
                 match r with
                 | [] => Normal xs
                 | _ :: _ =>
                     match join r with
                     | Throw e => Throw e
                     | Normal rs => Normal (xs ++ js "," ++ rs)
                     end
                 end
             end
         end) items
  | JObj props =>
      match lookup (js "toString") props with
      | Some _ => Throw TypeError
      | None => Normal (js "[object Object]")
      end
  end.

(** [a || b] *)
Definition or_else (a : option json) (b : json) : json :=
  match a with
  | Some v => if truthy a then v else b
  | None => b
  end.

(** ** DOM nodes *)

(** An element with [id = []] has no id. *)
Inductive node :=
| TextNode (data : jsstring)
| Elem (tag : jsstring) (id : jsstring) (classes : list jsstring) (kids : list node).

Definition has_id (i : jsstring) (n : node) : bool :=
  match n with
  | TextNode _ => false
  | Elem _ j _ _ => jseqb j i
  end.

(** Number of elements of a subtree that carry the id [i]. *)
Fixpoint count_id (i : jsstring) (n : node) : nat :=
  match n with
  | TextNode _ => 0
  | Elem _ j _ ks => (if jseqb j i then 1 else 0) + list_sum (map (count_id i) ks)
  end.

Definition count_ids (i : jsstring) (f : list node) : nat :=
  list_sum (map (count_id i) f).

(** [document.getElementById(i)] followed by [.remove()]: the first element in
    tree order with that id is detached, with its subtree. [None] when no
    element has the id. *)
Definition remove_first (inside : node -> option node) (i : jsstring)
  : list node -> option (list node) :=
  fix go (l : list node) : option (list node) :=
    match l with
    | [] => None
    | n :: r =>
        if has_id i n then Some r
        else match inside n with
             | Some n' => Some (n' :: r)
             | None => option_map (cons n) (go r)
             end
    end.

Fixpoint remove_inside (i : jsstring) (n : node) : option node :=
  match n with
  | TextNode _ => None
  | Elem t j c ks => option_map (Elem t j c) (remove_first (remove_inside i) i ks)
  end.

Definition remove_by_id (i : jsstring) (f : list node) : option (list node) :=
  remove_first (remove_inside i) i f.

(** [classList.add] and [classList.remove] on a token list. *)
Definition class_add (c : jsstring) (cs : list jsstring) : list jsstring :=
  if existsb (jseqb c) cs then cs else cs ++ [c].

Definition class_remove (c : jsstring) (cs : list jsstring) : list jsstring :=
  filter (fun x => negb (jseqb x c)) cs.

Definition has_class (c : jsstring) (cs : list jsstring) : bool :=
  existsb (jseqb c) cs.

(** [textContent] of a forest: the text of its descendants, in tree order. *)
Fixpoint text_of (n : node) : jsstring :=
  match n with
  | TextNode d => d
  | Elem _ _ _ ks => List.concat (map text_of ks)
  end.

Definition text_content (f : list node) : jsstring := List.concat (map text_of f).

(** ** The page *)

Record request := {
  url : jsstring;
  method : jsstring;
  headers : list (jsstring * jsstring);
  body : option json   (* the value handed to [JSON.stringify] *)
}.

(** What [fetch] resolves to: the status line and what [response.json()]
    settles to. *)
Record http_response := { status : nat; json_body : completion json }.

(** Platform calls made by the script, recorded in the order they happen. *)
Inductive call :=
| PreventDefault
| AppendChild (n : node)
| ScrollToEnd
| GetElementById (i : jsstring) (found : bool)
| NodeRemove
| InputValue (v : jsstring)
| InputDisabled (b : bool)
| InputFocus
| Fetch (r : request)
| ConsoleError (e : exn)
| ButtonDisabled (b : bool)
| ButtonClass (add : bool) (c : jsstring)
| ToastText (t : jsstring)
| ToastClass (add : bool) (c : jsstring)
| SetTimeout (ms : nat).

Record page := {
  chatMessages : list node;           (* children of #chat-messages *)
  userInput_value : jsstring;         (* #user-input *)
  userInput_disabled : bool;
  userInput_focused : bool;
  refreshBtn_disabled : bool;         (* #refresh-db-btn *)
  refreshBtn_classes : list jsstring;
  toast_kids : list node;             (* #toast *)
  toast_classes : list jsstring;
  clock : nat;                        (* milliseconds *)
  timers : list nat;                  (* due times of the pending timeouts *)
  calls : list call
}.

Definition with_chatMessages f p :=
  {| chatMessages := f; userInput_value := userInput_value p;
     userInput_disabled := userInput_disabled p; userInput_focused := userInput_focused p;
     refreshBtn_disabled := refreshBtn_disabled p; refreshBtn_classes := refreshBtn_classes p;
     toast_kids := toast_kids p; toast_classes := toast_classes p;
     clock := clock p; timers := timers p; calls := calls p |}.

Definition with_userInput_value v p :=
  {| chatMessages := chatMessages p; userInput_value := v;
     userInput_disabled := userInput_disabled p; userInput_focused := userInput_focused p;
     refreshBtn_disabled := refreshBtn_disabled p; refreshBtn_classes := refreshBtn_classes p;
     toast_kids := toast_kids p; toast_classes := toast_classes p;
     clock := clock p; timers := timers p; calls := calls p |}.

(** A disabled control cannot keep the focus. *)
Definition with_userInput_disabled (b : bool) p :=
  {| chatMessages := chatMessages p; userInput_value := userInput_value p;
     userInput_disabled := b;
     userInput_focused := if b then false else userInput_focused p;
     refreshBtn_disabled := refreshBtn_disabled p; refreshBtn_classes := refreshBtn_classes p;
     toast_kids := toast_kids p; toast_classes := toast_classes p;
     clock := clock p; timers := timers p; calls := calls p |}.

(** [focus()] gives the focus to a control that is not disabled. *)
Definition with_userInput_focus p :=
  {| chatMessages := chatMessages p; userInput_value := userInput_value p;
     userInput_disabled := userInput_disabled p; userInput_focused := negb (userInput_disabled p);
     refreshBtn_disabled := refreshBtn_disabled p; refreshBtn_classes := refreshBtn_classes p;
     toast_kids := toast_kids p; toast_classes := toast_classes p;
     clock := clock p; timers := timers p; calls := calls p |}.

Definition with_refreshBtn_disabled b p :=
  {| chatMessages := chatMessages p; userInput_value := userInput_value p;
     userInput_disabled := userInput_disabled p; userInput_focused := userInput_focused p;
     refreshBtn_disabled := b; refreshBtn_classes := refreshBtn_classes p;
     toast_kids := toast_kids p; toast_classes := toast_classes p;
     clock := clock p; timers := timers p; calls := calls p |}.

Definition with_refreshBtn_classes cs p :=
  {| chatMessages := chatMessages p; userInput_value := userInput_value p;
     userInput_disabled := userInput_disabled p; userInput_focused := userInput_focused p;
     refreshBtn_disabled := refreshBtn_disabled p; refreshBtn_classes := cs;
     toast_kids := toast_kids p; toast_classes := toast_classes p;
     clock := clock p; timers := timers p; calls := calls p |}.

Definition with_toast_kids ks p :=
  {| chatMessages := chatMessages p; userInput_value := userInput_value p;
     userInput_disabled := userInput_disabled p; userInput_focused := userInput_focused p;
     refreshBtn_disabled := refreshBtn_disabled p; refreshBtn_classes := refreshBtn_classes p;
     toast_kids := ks; toast_classes := toast_classes p;
     clock := clock p; timers := timers p; calls := calls p |}.

Definition with_toast_classes cs p :=
  {| chatMessages := chatMessages p; userInput_value := userInput_value p;
     userInput_disabled := userInput_disabled p; userInput_focused := userInput_focused p;
     refreshBtn_disabled := refreshBtn_disabled p; refreshBtn_classes := refreshBtn_classes p;
     toast_kids := toast_kids p; toast_classes := cs;
     clock := clock p; timers := timers p; calls := calls p |}.

Definition with_clock t p :=
  {| chatMessages := chatMessages p; userInput_value := userInput_value p;
     userInput_disabled := userInput_disabled p; userInput_focused := userInput_focused p;
     refreshBtn_disabled := refreshBtn_disabled p; refreshBtn_classes := refreshBtn_classes p;
     toast_kids := toast_kids p; toast_classes := toast_classes p;
     clock := t; timers := timers p; calls := calls p |}.

Definition with_timers ts p :=
  {| chatMessages := chatMessages p; userInput_value := userInput_value p;
     userInput_disabled := userInput_disabled p; userInput_focused := userInput_focused p;
     refreshBtn_disabled := refreshBtn_disabled p; refreshBtn_classes := refreshBtn_classes p;
     toast_kids := toast_kids p; toast_classes := toast_classes p;
     clock := clock p; timers := ts; calls := calls p |}.

Definition with_calls cs p :=
  {| chatMessages := chatMessages p; userInput_value := userInput_value p;
     userInput_disabled := userInput_disabled p; userInput_focused := userInput_focused p;
     refreshBtn_disabled := refreshBtn_disabled p; refreshBtn_classes := refreshBtn_classes p;
     toast_kids := toast_kids p; toast_classes := toast_classes p;
     clock := clock p; timers := timers p; calls := cs |}.

(** ** The handler monad: page state, and completions that keep the state *)

Definition JS (A : Type) : Type := page -> completion A * page.

Definition ret {A} (a : A) : JS A := fun p => (Normal a, p).

Definition bind {A B} (m : JS A) (k : A -> JS B) : JS B :=
  fun p =>
    match m p with
    | (Normal a, p') => k a p'
    | (Throw e, p') => (Throw e, p')
    end.

Notation "x <- m ;; k" := (bind m (fun x => k))
  (at level 61, m at next level, right associativity).
Notation "m ;; k" := (bind m (fun _ => k))
  (at level 61, right associativity).

(** A completion computed without touching the page; also [await] on a
    promise whose outcome is known. *)
Definition lift {A} (c : completion A) : JS A := fun p => (c, p).

Definition await {A} (c : completion A) : JS A := lift c.

Definition read {A} (f : page -> A) : JS A := fun p => (Normal (f p), p).

Definition update (f : page -> page) : JS unit := fun p => (Normal tt, f p).

Definition emit (c : call) : JS unit :=
  update (fun p => with_calls (calls p ++ [c]) p).

(** [try { body } catch (error) { handler } finally { cleanup }] *)
Definition try_catch_finally {A} (body : JS A) (handler : exn -> JS A)
    (cleanup : JS unit) : JS A :=
  fun p =>
    let '(r, p1) :=
      match body p with
      | (Throw e, p') => handler e p'
      | done => done
      end in
    match cleanup p1 with
    | (Normal _, p2) => (r, p2)
    | (Throw e, p2) => (Throw e, p2)
    end.

(** ** The script *)

Definition dq : jsstring := [34%N].
Definition nl : jsstring := [10%N].
Definition indent (n : nat) : jsstring := repeat 32%N n.

Definition typing_id : jsstring := js "typing-indicator".

(** The template literal of [addMessage]; [t] is spliced in as it is. *)
Definition content_markup (t : jsstring) : jsstring :=
  js "<div class=" ++ dq ++ js "content" ++ dq ++ js ">" ++ t ++ js "</div>".

(** The template literal of [showTypingIndicator]. *)
Definition indicator_markup : jsstring :=
  nl ++ indent 12 ++ js "<div class=" ++ dq ++ js "typing-indicator" ++ dq ++ js ">" ++
  nl ++ indent 16 ++ js "<div class=" ++ dq ++ js "typing-dot" ++ dq ++ js "></div>" ++
  nl ++ indent 16 ++ js "<div class=" ++ dq ++ js "typing-dot" ++ dq ++ js "></div>" ++
  nl ++ indent 16 ++ js "<div class=" ++ dq ++ js "typing-dot" ++ dq ++ js "></div>" ++
  nl ++ indent 12 ++ js "</div>" ++
  nl ++ indent 8.

Definition soft_failure_text : jsstring :=
  js "Sorry, I encountered an error. Please try again.".
Definition transport_failure_text : jsstring :=
  js "Unable to connect to the server.".
Definition refreshed_text : jsstring := js "Data refreshed!".
Definition refresh_failed_text : jsstring := js "Failed to refresh data.".

Definition toast_ms : nat := 3000.

Definition chat_request (query : jsstring) : request :=
  {| url := js "/api/chat";
     method := js "POST";
     headers := [(js "Content-Type", js "application/json")];
     body := Some (JObj [(js "query", JStr query)]) |}.

Definition refresh_request : request :=
  {| url := js "/api/refresh-data"; method := js "POST"; headers := []; body := None |}.

Section Controller.

(** The browser's HTML fragment parser, as used by the [innerHTML] setter. *)
Variable parseHTML : jsstring -> list node.

Definition message_node (t sender : jsstring) : node :=
  Elem (js "div") [] (class_add sender (class_add (js "message") []))
       (parseHTML (content_markup t)).

Definition indicator_node : node :=
  Elem (js "div") typing_id (class_add (js "ai") (class_add (js "message") []))
       (parseHTML indicator_markup).

Definition appendChild (n : node) : JS unit :=
  update (fun p => with_chatMessages (chatMessages p ++ [n]) p) ;;
  emit (AppendChild n).

Definition addMessage (text : json) (sender : jsstring) : JS unit :=
  t <- lift (to_string text) ;;
  appendChild (message_node t sender) ;;
  emit ScrollToEnd.

Definition showTypingIndicator : JS unit :=
  appendChild indicator_node ;;
  emit ScrollToEnd.

(** [document.getElementById('typing-indicator')], then [remove()] if an
    element was found. The search is over the log, see the head of the file. *)
Definition removeTypingIndicator : JS unit :=
  f <- read chatMessages ;;
  match remove_by_id typing_id f with
  | Some f' =>
      emit (GetElementById typing_id true) ;;
      update (with_chatMessages f') ;;
      emit NodeRemove
  | None => emit (GetElementById typing_id false)
  end.

(** The [textContent] setter: [null] clears, anything else is converted to
    a string and becomes the only child. *)
Definition set_textContent (v : json) : JS jsstring :=
  t <- lift (match v with JNull => Normal [] | _ => to_string v end) ;;
  update (with_toast_kids (match t with [] => [] | _ => [TextNode t] end)) ;;
  emit (ToastText t) ;;
  ret t.

Definition showToast (message : json) : JS unit :=
  _ <- set_textContent message ;;
  update (fun p => with_toast_classes (class_add (js "show") (toast_classes p)) p) ;;
  emit (ToastClass true (js "show")) ;;
  update (fun p => with_timers (timers p ++ [clock p + toast_ms]) p) ;;
  emit (SetTimeout toast_ms).

(** The callback handed to [setTimeout]. *)
Definition hideToast : JS unit :=
  update (fun p => with_toast_classes (class_remove (js "show") (toast_classes p)) p) ;;
  emit (ToastClass false (js "show")).

(** The [submit] handler up to its first [await]; the result tells whether
    a request is now in flight. *)
Definition submit_begin : JS bool :=
  emit PreventDefault ;;
  v <- read userInput_value ;;
  let query := trim v in
  if jseqb query [] then ret false
  else
    addMessage (JStr query) (js "user") ;;
    update (with_userInput_value []) ;; emit (InputValue []) ;;
    update (with_userInput_disabled true) ;; emit (InputDisabled true) ;;
    showTypingIndicator ;;
    emit (Fetch (chat_request query)) ;;
    ret true.

(** The rest of the [submit] handler, run when [fetch] settles with [r].
    No statement of the handler runs between the two [await]s. *)
Definition submit_settle (r : completion http_response) : JS unit :=
  try_catch_finally
    (response <- await r ;;
     data <- await (json_body response) ;;
     removeTypingIndicator ;;
     member <- lift (get_member data (js "response")) ;;
     match member with
     | Some v =>
         if truthy member then addMessage v (js "ai")
         else addMessage (JStr soft_failure_text) (js "ai")
     | None => addMessage (JStr soft_failure_text) (js "ai")
     end)
    (fun error =>
       removeTypingIndicator ;;
       addMessage (JStr transport_failure_text) (js "ai") ;;
       emit (ConsoleError error))
    (update (with_userInput_disabled false) ;; emit (InputDisabled false) ;;
     update with_userInput_focus ;; emit InputFocus).

(** The [click] handler of the refresh button up to its first [await]. *)
Definition refresh_begin : JS unit :=
  update (with_refreshBtn_disabled true) ;; emit (ButtonDisabled true) ;;
  update (fun p => with_refreshBtn_classes (class_add (js "fa-spin") (refreshBtn_classes p)) p) ;;
  emit (ButtonClass true (js "fa-spin")) ;;
  emit (Fetch refresh_request).

Definition refresh_settle (r : completion http_response) : JS unit :=
  try_catch_finally
    (response <- await r ;;
     data <- await (json_body response) ;;
     member <- lift (get_member data (js "message")) ;;
     showToast (or_else member (JStr refreshed_text)))
    (fun _ => showToast (JStr refresh_failed_text))
    (update (with_refreshBtn_disabled false) ;; emit (ButtonDisabled false) ;;
     update (fun p => with_refreshBtn_classes (class_remove (js "fa-spin") (refreshBtn_classes p)) p) ;;
     emit (ButtonClass false (js "fa-spin"))).

(** ** The page and its environment *)

Inductive handler := ChatCall | RefreshCall.

(** [pending] lists the handler calls suspended on a request. *)
Record system := { pg : page; pending : list handler }.

Inductive event :=
| UserTypes (s : jsstring)                       (* the user edits the input *)
| SubmitForm                                     (* [submit] fires on the form *)
| ClickRefresh                                   (* the user clicks the button *)
| Settles (i : nat) (r : completion http_response)
                                                 (* the [i]-th pending request settles *)
| Elapse (d : nat).                              (* [d] milliseconds pass *)

Fixpoint drop_nth {A} (i : nat) (l : list A) : list A :=
  match l, i with
  | [], _ => []
  | _ :: r, 0 => r
  | x :: r, S j => x :: drop_nth j r
  end.

(** Time passes: every timeout that falls due runs its callback. *)
Definition elapse (d : nat) (p : page) : page :=
  let t := clock p + d in
  let due := filter (fun x => x <=? t) (timers p) in
  let later := filter (fun x => negb (x <=? t)) (timers p) in
  fold_left (fun q _ => snd (hideToast q)) due
            (with_timers later (with_clock t p)).

(** One event. A disabled input takes no edits and a disabled button
    dispatches no click. *)
Definition step (e : event) (s : system) : system :=
  match e with
  | UserTypes v =>
      if userInput_disabled (pg s) then s
      else {| pg := with_userInput_value v (pg s); pending := pending s |}
  | SubmitForm =>
      match submit_begin (pg s) with
      | (Normal true, p) => {| pg := p; pending := pending s ++ [ChatCall] |}
      | (_, p) => {| pg := p; pending := pending s |}
      end
  | ClickRefresh =>
      if refreshBtn_disabled (pg s) then s
      else {| pg := snd (refresh_begin (pg s)); pending := pending s ++ [RefreshCall] |}
  | Settles i r =>
      match nth_error (pending s) i with
      | Some ChatCall =>
          {| pg := snd (submit_settle r (pg s)); pending := drop_nth i (pending s) |}
      | Some RefreshCall =>
          {| pg := snd (refresh_settle r (pg s)); pending := drop_nth i (pending s) |}
      | None => s
      end
  | Elapse d => {| pg := elapse d (pg s); pending := pending s |}
  end.

Definition run (es : list event) (s : system) : system :=
  fold_left (fun s e => step e s) es s.

End Controller.

(** The page once loaded: an empty log unless the template put something
    there, every control enabled, nothing shown, nothing pending. *)
Definition loaded (welcome : list node) : system :=
  {| pg := {| chatMessages := welcome; userInput_value := []; userInput_disabled := false;
              userInput_focused := false; refreshBtn_disabled := false; refreshBtn_classes := [];
              toast_kids := []; toast_classes := []; clock := 0; timers := [];
              calls := [] |};
     pending := [] |}.

(** ** Reading the record of calls *)

(** A Message of the log: an element of classes [message] and [sender] that
    is not the typing indicator. *)
Definition is_message (sender : jsstring) (n : node) : bool :=
  match n with
  | TextNode _ => false
  | Elem _ i cs _ =>
      has_class (js "message") cs && has_class sender cs && negb (jseqb i typing_id)
  end.

Definition appends_message (sender : jsstring) (c : call) : bool :=
  match c with
  | AppendChild n => is_message sender n
  | _ => false
  end.

Definition is_fetch (c : call) : bool :=
  match c with
  | Fetch _ => true
  | _ => false
  end.

Definition is_node_remove (c : call) : bool :=
  match c with
  | NodeRemove => true
  | _ => false
  end.

Definition is_console_error (c : call) : bool :=
  match c with
  | ConsoleError _ => true
  | _ => false
  end.

Definition count_calls (f : call -> bool) (cs : list call) : nat :=
  List.length (filter f cs).




(** What one recorded call does to the page. [NodeRemove] is only ever
    called on the element found under the typing indicator's id. *)
Definition apply_call (c : call) (p : page) : page :=
  match c with
  | AppendChild n => with_chatMessages (chatMessages p ++ [n]) p
  | NodeRemove =>
      match remove_by_id typing_id (chatMessages p) with
      | Some f => with_chatMessages f p
      | None => p
      end
  | InputValue v => with_userInput_value v p
  | InputDisabled b => with_userInput_disabled b p
  | InputFocus => with_userInput_focus p
  | ButtonDisabled b => with_refreshBtn_disabled b p
  | ButtonClass true c => with_refreshBtn_classes (class_add c (refreshBtn_classes p)) p
  | ButtonClass false c => with_refreshBtn_classes (class_remove c (refreshBtn_classes p)) p
  | ToastText t => with_toast_kids (match t with [] => [] | _ => [TextNode t] end) p
  | ToastClass true c => with_toast_classes (class_add c (toast_classes p)) p
  | ToastClass false c => with_toast_classes (class_remove c (toast_classes p)) p
  | SetTimeout ms => with_timers (timers p ++ [clock p + ms]) p
  | PreventDefault | ScrollToEnd | GetElementById _ _ | Fetch _ | ConsoleError _ => p
  end.

(** The calls [cs] made one after the other on the page [p]. *)
Definition replay (cs : list call) (p : page) : page :=
  with_calls (calls p ++ cs) (fold_left (fun q c => apply_call c q) cs p).

Definition toast_visible (p : page) : bool := has_class (js "show") (toast_classes p).

Definition spinning (p : page) : bool := has_class (js "fa-spin") (refreshBtn_classes p).

(** The state machine of an action: Pending while its control is disabled. *)
Inductive phase := Idle | Pending.

Definition chat_phase (p : page) : phase :=
  if userInput_disabled p then Pending else Idle.

Definition refresh_phase (p : page) : phase :=
  if refreshBtn_disabled p then Pending else Idle.

Definition kids_of (n : node) : list node :=
  match n with
  | TextNode _ => []
  | Elem _ _ _ ks => ks
  end.

(** ** What a handler leaves behind

    The outcomes of the two handlers written out, to state the properties
    against. *)

(** What the handler holds once both [await]s are over. *)
Definition parsed (r : completion http_response) : completion json :=
  match r with
  | Normal response => json_body response
  | Throw e => Throw e
  end.

(** The text the [try] block of the submit handler goes on to display. *)
Definition reply_text (data : json) : completion jsstring :=
  match get_member data (js "response") with
  | Throw e => Throw e
  | Normal m => to_string (or_else m (JStr soft_failure_text))
  end.

(** The text the [try] block of the refresh handler hands to [textContent]. *)
Definition toast_text (data : json) : completion jsstring :=
  match get_member data (js "message") with
  | Throw e => Throw e
  | Normal m => to_string (or_else m (JStr refreshed_text))
  end.

Definition without_indicator (f : list node) : list node :=
  match remove_by_id typing_id f with
  | Some f' => f'
  | None => f
  end.

Definition removal_calls (f : list node) : list call :=
  match remove_by_id typing_id f with
  | Some _ => [GetElementById typing_id true; NodeRemove]
  | None => [GetElementById typing_id false]
  end.

Definition cleanup_calls : list call := [InputDisabled false; InputFocus].

Definition toast_calls (t : jsstring) : list call :=
  [ToastText t; ToastClass true (js "show"); SetTimeout toast_ms].

Definition refresh_cleanup_calls : list call :=
  [ButtonDisabled false; ButtonClass false (js "fa-spin")].

(** The page after a submit handler has run to its end: the log is [f],
    the input is enabled and has the focus, [new] was called. *)
Definition settled (f : list node) (new : list call) (p : page) : page :=
  {| chatMessages := f; userInput_value := userInput_value p;
     userInput_disabled := false; userInput_focused := true;
     refreshBtn_disabled := refreshBtn_disabled p; refreshBtn_classes := refreshBtn_classes p;
     toast_kids := toast_kids p; toast_classes := toast_classes p;
     clock := clock p; timers := timers p; calls := calls p ++ new |}.

(** The page after a refresh handler has run to its end, having shown [t]. *)
Definition refreshed (t : jsstring) (new : list call) (p : page) : page :=
  {| chatMessages := chatMessages p; userInput_value := userInput_value p;
     userInput_disabled := userInput_disabled p; userInput_focused := userInput_focused p;
     refreshBtn_disabled := false;
     refreshBtn_classes := class_remove (js "fa-spin") (refreshBtn_classes p);
     toast_kids := match t with [] => [] | _ => [TextNode t] end;
     toast_classes := class_add (js "show") (toast_classes p);
     clock := clock p; timers := timers p ++ [clock p + toast_ms];
     calls := calls p ++ new |}.

Section Outcomes.

Variable parseHTML : jsstring -> list node.

(** The calls of a submission that goes through, in order. *)
Definition submit_calls (q : jsstring) : list call :=
  [ PreventDefault;
    AppendChild (message_node parseHTML q (js "user")); ScrollToEnd;
    InputValue []; InputDisabled true;
    AppendChild (indicator_node parseHTML); ScrollToEnd;
    Fetch (chat_request q) ].

(** The page once a submission of [q] is on its way. *)
Definition sent (q : jsstring) (p : page) : page :=
  {| chatMessages :=
       chatMessages p ++ [message_node parseHTML q (js "user"); indicator_node parseHTML];
     userInput_value := []; userInput_disabled := true; userInput_focused := false;
     refreshBtn_disabled := refreshBtn_disabled p; refreshBtn_classes := refreshBtn_classes p;
     toast_kids := toast_kids p; toast_classes := toast_classes p;
     clock := clock p; timers := timers p;
     calls := calls p ++ submit_calls q |}.

Definition reply_calls (t : jsstring) : list call :=
  [AppendChild (message_node parseHTML t (js "ai")); ScrollToEnd].

(** The [try] block ran to its end and displayed [t]. *)
Definition replied (t : jsstring) (p : page) : page :=
  settled (without_indicator (chatMessages p) ++ [message_node parseHTML t (js "ai")])
          (removal_calls (chatMessages p) ++ reply_calls t ++ cleanup_calls) p.

(** The [catch] block ran, entered with the log [f] after the calls
    [before] of the [try] block. *)
Definition failed (e : exn) (f : list node) (before : list call) (p : page) : page :=
  settled (without_indicator f ++ [message_node parseHTML transport_failure_text (js "ai")])
          (before ++ removal_calls f ++ reply_calls transport_failure_text ++
           [ConsoleError e] ++ cleanup_calls) p.

End Outcomes.

(** ** A stand-in for the browser's parser

    [sample_parser] agrees with an HTML parser on the markup used in the
    examples of this file: the typing indicator's template, the content
    wrapper around text free of [<] and [&], and the content wrapper around
    one empty element that carries an id. Anything else is kept as text. *)

Fixpoint strip_prefix (pre s : jsstring) : option jsstring :=
  match pre, s with
  | [], _ => Some s
  | a :: pre', b :: s' => if N.eqb a b then strip_prefix pre' s' else None
  | _ :: _, [] => None
  end.

Definition strip_suffix (suf s : jsstring) : option jsstring :=
  option_map (@rev N) (strip_prefix (rev suf) (rev s)).

Definition plain_text (t : jsstring) : bool :=
  forallb (fun c => negb (N.eqb c 60 || N.eqb c 38)) t.

Definition indicator_tree : list node :=
  let dot := Elem (js "div") [] [js "typing-dot"] [] in
  [ TextNode (nl ++ indent 12);
    Elem (js "div") [] [js "typing-indicator"]
      [ TextNode (nl ++ indent 16); dot;
        TextNode (nl ++ indent 16); dot;
        TextNode (nl ++ indent 16); dot;
        TextNode (nl ++ indent 12) ];
    TextNode (nl ++ indent 8) ].

(** [<i id="typing-indicator"></i>] *)
Definition decoy_markup : jsstring :=
  js "<i id=" ++ dq ++ js "typing-indicator" ++ dq ++ js "></i>".

Definition sample_parser (s : jsstring) : list node :=
  if jseqb s indicator_markup then indicator_tree
  else
    match strip_prefix (js "<div class=" ++ dq ++ js "content" ++ dq ++ js ">") s with
    | Some rest =>
        match strip_suffix (js "</div>") rest with
        | Some inner =>
            if plain_text inner then
              [Elem (js "div") [] [js "content"]
                    (match inner with [] => [] | _ => [TextNode inner] end)]
            else if jseqb inner decoy_markup then
              [Elem (js "div") [] [js "content"] [Elem (js "i") typing_id [] []]]
            else [TextNode s]
        | None => [TextNode s]
        end
    | None => [TextNode s]
    end.


(** ** Sample pages and responses *)

Definition answers (status : nat) (field : jsstring) (text : jsstring) : completion http_response :=
  Normal {| status := status; json_body := Normal (JObj [(field, JStr text)]) |}.

Definition hello_response : completion http_response := answers 200 (js "response") (js "Hello").

Definition empty_object_response : completion http_response :=
  Normal {| status := 200; json_body := Normal (JObj []) |}.

Definition null_response : completion http_response :=
  Normal {| status := 200; json_body := Normal JNull |}.

Definition network_down : completion http_response := Throw TypeError.

Definition not_json : completion http_response :=
  Normal {| status := 502; json_body := Throw SyntaxError |}.

(** A [message] that is an object with a [toString] key of its own. *)
Definition unconvertible_message : completion http_response :=
  Normal {| status := 200;
            json_body := Normal (JObj [(js "message", JObj [(js "toString", JNull)])]) |}.

(** A page on which the user has typed [v]. *)
Definition typed (v : jsstring) : page := with_userInput_value v (pg (loaded [])).

(** A page waiting for the reply to [q]. *)
Definition waiting (q : jsstring) : page := snd (submit_begin sample_parser (typed q)).

(** The calls made since the page was [p]. *)
Definition calls_since (p p' : page) : list call :=
  skipn (List.length (calls p)) (calls p').

(** The submit handler went through its [catch] block: it reported an error
    on the console. *)
Definition reaches_catch (parseHTML : jsstring -> list node)
    (r : completion http_response) (p : page) : bool :=
  existsb is_console_error (calls_since p (snd (submit_settle parseHTML r p))).

(** Two refreshes two seconds apart, each answered at once. *)
Definition two_toasts : list event :=
  [ ClickRefresh; Settles 0 (answers 200 (js "message") (js "first"));
    Elapse 2000;
    ClickRefresh; Settles 0 (answers 200 (js "message") (js "second")) ].

(** ** The typing indicator over a run of events *)

Definition is_chat (h : handler) : bool :=
  match h with
  | ChatCall => true
  | RefreshCall => false
  end.

(** Number of queries waiting for their reply. *)
Definition chat_pending (l : list handler) : nat := List.length (filter is_chat l).

(** Number of elements of the log with the typing indicator's id. *)
Definition indicators (s : system) : nat :=
  count_ids typing_id (chatMessages (pg s)).

(** The parser makes no element with the typing indicator's id out of the
    message markup for [t]. *)
Definition inert (parseHTML : jsstring -> list node) (t : jsstring) : bool :=
  count_ids typing_id (parseHTML (content_markup t)) =? 0.

(** The text of the ai Message that the submit handler appends when the
    request settles with [r]. *)
Definition shown_text (r : completion http_response) : jsstring :=
  match parsed r with
  | Normal data =>
      match reply_text data with
      | Normal t => t
      | Throw _ => transport_failure_text
      end
  | Throw _ => transport_failure_text
  end.

(** The texts that an event has [addMessage] render as markup. *)
Definition renders (e : event) (s : system) : list jsstring :=
  match e with
  | SubmitForm =>
      let q := trim (userInput_value (pg s)) in
      if jseqb q [] then [] else [q]
  | Settles i r =>
      match nth_error (pending s) i with
      | Some ChatCall => [shown_text r]
      | _ => []
      end
  | _ => []
  end.

Fixpoint rendered (parseHTML : jsstring -> list node) (es : list event) (s : system)
  : list jsstring :=
  match es with
  | [] => []
  | e :: r => renders e s ++ rendered parseHTML r (step parseHTML e s)
  end.

(** What holds between events: there are as many indicator elements as
    queries waiting for a reply, at most one, and while one waits the input
    is disabled and empty. *)
Definition steady (s : system) : Prop :=
  indicators s = chat_pending (pending s) /\
  chat_pending (pending s) <= 1 /\
  (chat_pending (pending s) = 1 ->
   userInput_disabled (pg s) = true /\ userInput_value (pg s) = []).

(** The user sends markup that carries the indicator's id, gets a reply, and
    sends a second message. *)
Definition decoy_run : list event :=
  [ UserTypes decoy_markup; SubmitForm; Settles 0 hello_response;
    UserTypes (js "hi"); SubmitForm ].

(** Two queries, the second answered by a [null] body, around a stray
    submit and a refresh. *)
Definition plain_run : list event :=
  [ UserTypes (js "hi"); SubmitForm; SubmitForm; Settles 0 hello_response;
    UserTypes (js "<again>"); ClickRefresh; SubmitForm; Settles 1 null_response;
    Elapse 5000; Settles 0 network_down ].


(** ** Reading a whole run

    What follows serves the properties of runs of events: how many refreshes
    wait, who wrote the messages appended, which nodes of the log are
    messages, and what one event can do to the page. *)

(** Number of refreshes waiting for their reply. *)
Definition refresh_pending (l : list handler) : nat :=
  List.length (filter (fun h => negb (is_chat h)) l).

Inductive author := User | Ai.

Definition author_of (c : call) : option author :=
  match c with
  | AppendChild n =>
      if is_message (js "user") n then Some User
      else if is_message (js "ai") n then Some Ai
      else None
  | _ => None
  end.

(** The authors of the Messages appended, oldest first. *)
Fixpoint authors (cs : list call) : list author :=
  match cs with
  | [] => []
  | c :: r =>
      match author_of c with
      | Some a => a :: authors r
      | None => authors r
      end
  end.

(** [k] exchanges: a user Message and the ai Message that answers it. *)
Fixpoint exchanges (k : nat) : list author :=
  match k with
  | 0 => []
  | S k' => User :: Ai :: exchanges k'
  end.

Definition is_chat_fetch (c : call) : bool :=
  match c with
  | Fetch r => jseqb (url r) (js "/api/chat")
  | _ => false
  end.

(** The children of the log other than typing indicators. *)
Definition messages_of (f : list node) : list node :=
  filter (fun n => negb (has_id typing_id n)) f.

(** The nodes handed to [appendChild], typing indicators left out. *)
Fixpoint appended (cs : list call) : list node :=
  match cs with
  | [] => []
  | AppendChild n :: r => if has_id typing_id n then appended r else n :: appended r
  | _ :: r => appended r
  end.

(** A string that neither starts nor ends with white space. *)
Definition head_ok (q : jsstring) : bool :=
  match q with
  | [] => true
  | c :: _ => negb (is_space c)
  end.

Definition trimmed (q : jsstring) : bool := head_ok q && head_ok (rev q).

(** A request the script may issue: the refresh request, or a query that
    is not empty and carries no white space around it. *)
Definition expected_call (c : call) : Prop :=
  match c with
  | Fetch r =>
      r = refresh_request \/
      exists q, r = chat_request q /\ q <> [] /\ trimmed q = true
  | _ => True
  end.

(** The page once the refresh button has been clicked. *)
Definition refresh_started (p : page) : page :=
  {| chatMessages := chatMessages p; userInput_value := userInput_value p;
     userInput_disabled := userInput_disabled p; userInput_focused := userInput_focused p;
     refreshBtn_disabled := true;
     refreshBtn_classes := class_add (js "fa-spin") (refreshBtn_classes p);
     toast_kids := toast_kids p; toast_classes := toast_classes p;
     clock := clock p; timers := timers p;
     calls := calls p ++ [ButtonDisabled true; ButtonClass true (js "fa-spin");
                          Fetch refresh_request] |}.

(** Calls that neither append a node nor issue a request nor touch a
    control. *)
Definition is_bookkeeping (c : call) : bool :=
  match c with
  | GetElementById _ _ => true
  | NodeRemove => true
  | ConsoleError _ => true
  | _ => false
  end.

(** Everything one event can do to the page and to the pending calls,
    with the texts it has [addMessage] render. *)
Inductive moves (parseHTML : jsstring -> list node)
  : system -> list jsstring -> system -> Prop :=
| move_none s : moves parseHTML s [] s
| move_typed s v :
    userInput_disabled (pg s) = false ->
    moves parseHTML s [] {| pg := with_userInput_value v (pg s); pending := pending s |}
| move_blank s :
    trim (userInput_value (pg s)) = [] ->
    moves parseHTML s []
      {| pg := with_calls (calls (pg s) ++ [PreventDefault]) (pg s);
         pending := pending s |}
| move_sent s :
    trim (userInput_value (pg s)) <> [] ->
    moves parseHTML s [trim (userInput_value (pg s))]
      {| pg := sent parseHTML (trim (userInput_value (pg s))) (pg s);
         pending := pending s ++ [ChatCall] |}
| move_refresh s :
    refreshBtn_disabled (pg s) = false ->
    moves parseHTML s []
      {| pg := refresh_started (pg s); pending := pending s ++ [RefreshCall] |}
| move_replied s i r f pre post :
    nth_error (pending s) i = Some ChatCall ->
    f = without_indicator (chatMessages (pg s)) \/
    f = without_indicator (without_indicator (chatMessages (pg s))) ->
    forallb is_bookkeeping pre = true ->
    forallb is_bookkeeping post = true ->
    List.length (filter is_console_error post) <= 1 ->
    moves parseHTML s [shown_text r]
      {| pg := settled (f ++ [message_node parseHTML (shown_text r) (js "ai")])
                       (pre ++ reply_calls parseHTML (shown_text r) ++ post ++ cleanup_calls)
                       (pg s);
         pending := drop_nth i (pending s) |}
| move_refreshed s i t :
    nth_error (pending s) i = Some RefreshCall ->
    moves parseHTML s []
      {| pg := refreshed t (toast_calls t ++ refresh_cleanup_calls) (pg s);
         pending := drop_nth i (pending s) |}
| move_elapsed s d :
    moves parseHTML s [] {| pg := elapse d (pg s); pending := pending s |}.

(** Bodies that are not objects, and an object whose [response] is [0]. *)
Definition array_response : completion http_response :=
  Normal {| status := 200; json_body := Normal (JArr [JStr (js "Hello")]) |}.

Definition zero_response : completion http_response :=
  Normal {| status := 200;
            json_body := Normal (JObj [(js "response",
                                        JNum {| num_zero := true; num_text := js "0" |})]) |}.

(** The input is the gate of the chat: either no query waits and the input
    is enabled, or one query waits and the input is disabled and empty. *)
Definition query_gate (s : system) : Prop :=
  (chat_pending (pending s) = 0 /\ userInput_disabled (pg s) = false) \/
  (chat_pending (pending s) = 1 /\ userInput_disabled (pg s) = true /\
   userInput_value (pg s) = []).

(** The button is the gate of the refresh, and spins while it is shut. *)
Definition refresh_gate (s : system) : Prop :=
  (refresh_pending (pending s) = 0 /\ refreshBtn_disabled (pg s) = false /\
   spinning (pg s) = false) \/
  (refresh_pending (pending s) = 1 /\ refreshBtn_disabled (pg s) = true /\
   spinning (pg s) = true).

(** The Messages appended so far are [k] exchanges, then the user Message
    still unanswered if a query waits; as many queries were sent as user
    Messages were appended. *)
Definition in_turns (s : system) : Prop :=
  exists k,
    authors (calls (pg s)) =
      exchanges k ++ (if chat_pending (pending s) =? 0 then [] else [User]) /\
    count_calls is_chat_fetch (calls (pg s)) = k + chat_pending (pending s).

(** A node of the log that is a typing indicator, or holds no element with
    the indicator's id. *)
Definition clean_node (n : node) : bool :=
  has_id typing_id n || (count_id typing_id n =? 0).

(** The log shows the Messages of the template followed by the nodes
    appended since, and every one of them is clean. *)
Definition append_only (welcome : list node) (s : system) : Prop :=
  forallb clean_node (chatMessages (pg s)) = true /\
  messages_of (chatMessages (pg s)) = welcome ++ appended (calls (pg s)).

(** Two exchanges, the second one failing. *)
Definition two_exchanges : list event :=
  [ UserTypes (js "hi"); SubmitForm; Settles 0 hello_response;
    UserTypes (js " again "); SubmitForm; Settles 0 network_down ].

(** The refresh button, the toast and the timeouts are as they were. *)
Definition refresh_side_kept (p p' : page) : Prop :=
  refreshBtn_disabled p' = refreshBtn_disabled p /\
  refreshBtn_classes p' = refreshBtn_classes p /\
  toast_kids p' = toast_kids p /\ toast_classes p' = toast_classes p /\
  timers p' = timers p /\ clock p' = clock p.

(** The log and the input field are as they were. *)
Definition chat_side_kept (p p' : page) : Prop :=
  chatMessages p' = chatMessages p /\
  userInput_value p' = userInput_value p /\
  userInput_disabled p' = userInput_disabled p /\
  userInput_focused p' = userInput_focused p.

(** Every pending timeout falls due within the next [toast_ms]
    milliseconds, and a toast that shows has one pending. *)
Definition due_soon (p : page) : Prop :=
  (toast_visible p = true -> timers p <> []) /\
  Forall (fun due => clock p < due <= clock p + toast_ms) (timers p).

Definition is_object (data : json) : bool :=
  match data with
  | JObj _ => true
  | _ => false
  end.

(** A reply whose [response] is an object, not a string. *)
Definition object_reply : completion http_response :=
  Normal {| status := 200;
            json_body := Normal (JObj [(js "response",
                                        JObj [(js "text", JStr (js "Hello"))])]) |}.

(** * Properties *)

(** ** Strings *)

Lemma jseqb_eq (a b : jsstring) : jseqb a b = true <-> a = b.
Proof.
  revert b; induction a as [|x a IH]; intros [|y b]; simpl; split;
    try congruence; try reflexivity.
  - intros H. apply andb_true_iff in H as [Hx Hr].
    apply N.eqb_eq in Hx. apply IH in Hr. congruence.
  - intros H. injection H as -> ->. rewrite N.eqb_refl. simpl. now apply IH.
Qed.

Lemma jseqb_refl (a : jsstring) : jseqb a a = true.
Proof. now apply jseqb_eq. Qed.

Lemma jseqb_nil (a : jsstring) : jseqb a [] = false <-> a <> [].
Proof.
  destruct a; simpl; split; intros H; congruence.
Qed.

Lemma trimStart_blank (s : jsstring) :
  trimStart s = [] <-> forallb is_space s = true.
Proof.
  induction s as [|c s IH]; simpl.
  - tauto.
  - destruct (is_space c); simpl.
    + exact IH.
    + split; discriminate.
Qed.

Lemma trimStart_all_space_suffix (s : jsstring) :
  forallb is_space (trimStart s) = true -> forallb is_space s = true.
Proof.
  induction s as [|c s IH]; simpl; auto.
  destruct (is_space c) eqn:E; simpl; auto.
  rewrite E. simpl. discriminate.
Qed.

Lemma forallb_rev {A} (f : A -> bool) (l : list A) :
  forallb f (rev l) = forallb f l.
Proof.
  induction l as [|a l IH]; simpl; auto.
  rewrite forallb_app, IH. simpl. rewrite andb_true_r. apply andb_comm.
Qed.

(** [trim] leaves nothing exactly when the string is empty or made of
    white space only. *)
Lemma trim_blank (s : jsstring) :
  trim s = [] <-> forallb is_space s = true.
Proof.
  unfold trim, trimEnd. split.
  - intros H.
    assert (H' : trimStart (rev (trimStart s)) = []).
    { apply (f_equal (@rev N)) in H. now rewrite rev_involutive in H. }
    apply trimStart_blank in H'. rewrite forallb_rev in H'.
    now apply trimStart_all_space_suffix.
  - intros H. apply trimStart_blank in H. rewrite H. reflexivity.
Qed.

(** ** Submitting a query *)

Arguments trim : simpl never.
Arguments message_node : simpl never.
Arguments indicator_node : simpl never.
Arguments chat_request : simpl never.

Arguments js : simpl never.
Arguments typing_id : simpl never.
Arguments soft_failure_text : simpl never.
Arguments transport_failure_text : simpl never.
Arguments refreshed_text : simpl never.
Arguments refresh_failed_text : simpl never.
Arguments toast_ms : simpl never.
Arguments refresh_request : simpl never.
Arguments remove_by_id : simpl never.
Arguments class_add : simpl never.
Arguments class_remove : simpl never.

(** Runs the monadic code of a handler on a page, leaving strings, nodes
    and the conversions of values folded. *)
Ltac run_js :=
  unfold submit_begin, submit_settle, refresh_begin, refresh_settle,
    try_catch_finally, addMessage, showTypingIndicator, removeTypingIndicator,
    showToast, set_textContent, hideToast, appendChild,
    emit, update, read, await, lift, bind, ret,
    settled, refreshed, replied, failed;
  cbn.

Section Submit.

Variable parseHTML : jsstring -> list node.

Lemma submit_begin_sends (p : page) :
  trim (userInput_value p) <> [] ->
  submit_begin parseHTML p = (Normal true, sent parseHTML (trim (userInput_value p)) p).
Proof.
  intros Hq. apply jseqb_nil in Hq.
  run_js. rewrite Hq. run_js.
  unfold sent, submit_calls.
  repeat rewrite <- app_assoc. reflexivity.
Qed.

Lemma submit_begin_ignores (p : page) :
  trim (userInput_value p) = [] ->
  submit_begin parseHTML p = (Normal false, with_calls (calls p ++ [PreventDefault]) p).
Proof.
  intros Hq. run_js. rewrite Hq. reflexivity.
Qed.

End Submit.

(** ** When the request settles *)

Section Settle.

Variable parseHTML : jsstring -> list node.

Lemma submit_settle_replies r data t (p : page) :
  parsed r = Normal data -> reply_text data = Normal t ->
  submit_settle parseHTML r p = (Normal tt, replied parseHTML t p).
Proof.
  unfold parsed, reply_text, replied, settled, without_indicator, removal_calls.
  intros Hr Ht. destruct r as [response|e]; [|discriminate].
  run_js. rewrite Hr.
  destruct (remove_by_id typing_id (chatMessages p)) as [f'|]; run_js;
    (destruct (get_member data (js "response")) as [m|e]; [|discriminate]);
    run_js; destruct m as [v|]; unfold or_else in Ht.
  all: try (destruct (truthy (Some v)) eqn:Etr).
  all: cbn in Ht; try (injection Ht as <-).
  all: run_js; rewrite ?Ht; run_js; repeat rewrite <- app_assoc; reflexivity.
Qed.

(** The request did not complete: the [catch] block runs on the page as
    the event found it. *)
Lemma submit_settle_fails r e (p : page) :
  parsed r = Throw e ->
  submit_settle parseHTML r p = (Normal tt, failed parseHTML e (chatMessages p) [] p).
Proof.
  unfold parsed, failed, settled, without_indicator, removal_calls, reply_calls.
  intros Hr. destruct r as [response|e']; run_js.
  - rewrite Hr. run_js.
    destruct (remove_by_id typing_id (chatMessages p)); run_js;
      repeat rewrite <- app_assoc; reflexivity.
  - injection Hr as ->.
    destruct (remove_by_id typing_id (chatMessages p)); run_js;
      repeat rewrite <- app_assoc; reflexivity.
Qed.

(** The body parsed but evaluating it threw: the [catch] block runs after
    the indicator lookup of the [try] block. *)
Lemma submit_settle_fails_late r data e (p : page) :
  parsed r = Normal data -> reply_text data = Throw e ->
  submit_settle parseHTML r p =
    (Normal tt, failed parseHTML e (without_indicator (chatMessages p))
                       (removal_calls (chatMessages p)) p).
Proof.
  unfold parsed, reply_text, failed, settled, without_indicator, removal_calls,
    reply_calls, or_else.
  intros Hr Ht. destruct r as [response|e']; [|discriminate].
  run_js. rewrite Hr.
  destruct (remove_by_id typing_id (chatMessages p)) as [f'|]; run_js;
    (destruct (get_member data (js "response")) as [m|e'']; run_js;
     [destruct m as [v|]; [destruct (truthy (Some v))|]; run_js;
      try discriminate; rewrite Ht; run_js
     |injection Ht as ->]).
  all: try (destruct (remove_by_id typing_id f'); run_js).
  all: try (destruct (remove_by_id typing_id (chatMessages p)); run_js).
  all: repeat rewrite <- app_assoc; try reflexivity; try discriminate.
Qed.

Lemma or_else_not_null m d : d <> JNull -> or_else m d <> JNull.
Proof.
  unfold or_else. destruct m as [v|]; auto.
  destruct v; simpl; auto; try discriminate.
  - destruct b; auto; discriminate.
  - destruct (negb (num_zero n)); auto; discriminate.
  - destruct (negb (jseqb s [])); auto; discriminate.
Qed.

Lemma refresh_settle_shows r data t (p : page) :
  parsed r = Normal data -> toast_text data = Normal t ->
  refresh_settle r p =
    (Normal tt, refreshed t (toast_calls t ++ refresh_cleanup_calls) p).
Proof.
  unfold parsed, toast_text, refreshed, toast_calls, refresh_cleanup_calls.
  intros Hr Ht. destruct r as [response|e]; [|discriminate].
  run_js. rewrite Hr. run_js.
  destruct (get_member data (js "message")) as [m|e]; [|discriminate]. run_js.
  assert (Hn : or_else m (JStr refreshed_text) <> JNull)
    by (apply or_else_not_null; discriminate).
  destruct (or_else m (JStr refreshed_text)) eqn:E; try congruence;
    rewrite Ht; run_js; repeat rewrite <- app_assoc; reflexivity.
Qed.

Lemma refresh_settle_fails r (p : page) :
  (exists e, parsed r = Throw e) \/
  (exists data e, parsed r = Normal data /\ toast_text data = Throw e) ->
  refresh_settle r p =
    (Normal tt, refreshed refresh_failed_text
                          (toast_calls refresh_failed_text ++ refresh_cleanup_calls) p).
Proof.
  unfold parsed, toast_text, refreshed, toast_calls, refresh_cleanup_calls.
  intros [[e Hr]|[data [e [Hr Ht]]]].
  - destruct r as [response|e']; run_js.
    + rewrite Hr. run_js. repeat rewrite <- app_assoc. reflexivity.
    + repeat rewrite <- app_assoc. reflexivity.
  - destruct r as [response|e']; [|discriminate].
    run_js. rewrite Hr. run_js.
    destruct (get_member data (js "message")) as [m|e'']; run_js.
    + assert (Hn : or_else m (JStr refreshed_text) <> JNull)
        by (apply or_else_not_null; discriminate).
      destruct (or_else m (JStr refreshed_text)) eqn:E; try congruence;
        rewrite Ht; run_js; repeat rewrite <- app_assoc; reflexivity.
    + repeat rewrite <- app_assoc. reflexivity.
Qed.

End Settle.

(** Every way the submit handler can end. *)
Lemma submit_settle_cases (parseHTML : jsstring -> list node) r (p : page) :
  (exists data t, parsed r = Normal data /\ reply_text data = Normal t /\
     submit_settle parseHTML r p = (Normal tt, replied parseHTML t p)) \/
  (exists e, parsed r = Throw e /\
     submit_settle parseHTML r p = (Normal tt, failed parseHTML e (chatMessages p) [] p)) \/
  (exists data e, parsed r = Normal data /\ reply_text data = Throw e /\
     submit_settle parseHTML r p =
       (Normal tt, failed parseHTML e (without_indicator (chatMessages p))
                          (removal_calls (chatMessages p)) p)).
Proof.
  destruct (parsed r) as [data|e] eqn:Hr.
  - destruct (reply_text data) as [t|e] eqn:Ht.
    + left. exists data, t. split; [reflexivity|]. split; [exact Ht|].
      now apply submit_settle_replies with (data := data).
    + right. right. exists data, e. split; [reflexivity|]. split; [exact Ht|].
      now apply submit_settle_fails_late with (data := data).
  - right. left. exists e. split; [reflexivity|]. now apply submit_settle_fails.
Qed.

(** Every way the refresh handler can end. *)
Lemma refresh_settle_cases r (p : page) :
  exists t,
    refresh_settle r p = (Normal tt, refreshed t (toast_calls t ++ refresh_cleanup_calls) p) /\
    t = match parsed r with
        | Normal data =>
            match toast_text data with
            | Normal t => t
            | Throw _ => refresh_failed_text
            end
        | Throw _ => refresh_failed_text
        end.
Proof.
  destruct (parsed r) as [data|e] eqn:Hr.
  - destruct (toast_text data) as [t|e] eqn:Ht.
    + exists t. split; auto. now apply refresh_settle_shows with (data := data).
    + exists refresh_failed_text. split; auto.
      apply refresh_settle_fails. right. now exists data, e.
  - exists refresh_failed_text. split; auto.
    apply refresh_settle_fails. left. now exists e.
Qed.

Lemma text_content_set (t : jsstring) :
  text_content (match t with [] => [] | _ :: _ => [TextNode t] end) = t.
Proof.
  destruct t; auto. unfold text_content. simpl. now rewrite app_nil_r.
Qed.

(** ** Single actions *)

Lemma skipn_length_app {A} (l r : list A) : skipn (List.length l) (l ++ r) = r.
Proof. induction l; simpl; auto. Qed.

Lemma has_class_add c cs : has_class c (class_add c cs) = true.
Proof.
  unfold has_class, class_add. destruct (existsb (jseqb c) cs) eqn:E; auto.
  rewrite existsb_app, E. simpl. now rewrite jseqb_refl.
Qed.

Lemma jseqb_sym a b : jseqb a b = jseqb b a.
Proof.
  destruct (jseqb a b) eqn:E1, (jseqb b a) eqn:E2; auto.
  - apply jseqb_eq in E1. subst. rewrite jseqb_refl in E2. discriminate.
  - apply jseqb_eq in E2. subst. rewrite jseqb_refl in E1. discriminate.
Qed.

Lemma has_class_remove c cs : has_class c (class_remove c cs) = false.
Proof.
  unfold has_class, class_remove. induction cs as [|x cs IH]; simpl; auto.
  destruct (jseqb x c) eqn:E; simpl; auto.
  rewrite jseqb_sym, E. simpl. exact IH.
Qed.

(** C1. Whatever the input field holds, the submit handler appends exactly
    one user Message and issues exactly one request, to the query endpoint,
    when the trimmed input is not empty (the Message comes before the
    request); it appends nothing and requests nothing, leaving the page as it
    was, when the input is empty or made of white space only. *)
Theorem submit_one_message_one_request (parseHTML : jsstring -> list node) (p : page) :
  let q := trim (userInput_value p) in
  (q <> [] ->
   exists p',
     submit_begin parseHTML p = (Normal true, p') /\
     chatMessages p' =
       chatMessages p ++ [message_node parseHTML q (js "user"); indicator_node parseHTML] /\
     calls p' = calls p ++ submit_calls parseHTML q /\
     count_calls (appends_message (js "user")) (submit_calls parseHTML q) = 1 /\
     count_calls (appends_message (js "ai")) (submit_calls parseHTML q) = 0 /\
     filter is_fetch (submit_calls parseHTML q) = [Fetch (chat_request q)] /\
     url (chat_request q) = js "/api/chat" /\
     body (chat_request q) = Some (JObj [(js "query", JStr q)]))
  /\
  (forallb is_space (userInput_value p) = true ->
   submit_begin parseHTML p = (Normal false, with_calls (calls p ++ [PreventDefault]) p) /\
   count_calls (appends_message (js "user")) [PreventDefault] = 0 /\
   count_calls is_fetch [PreventDefault] = 0).
Proof.
  intros q. split.
  - intros Hq. exists (sent parseHTML q p).
    split; [now apply submit_begin_sends|]. split; [reflexivity|].
    split; [reflexivity|].
    generalize q. intros t.
    split; [vm_compute; reflexivity|]. split; [vm_compute; reflexivity|].
    split; [reflexivity|]. split; reflexivity.
  - intros Hs. apply trim_blank in Hs. split; [|split; reflexivity].
    now apply submit_begin_ignores.
Qed.

Lemma submit_one_message_one_request_witness :
  fst (submit_begin sample_parser (typed (js "  hi "))) = Normal true /\
  fst (submit_begin sample_parser (typed (js "   "))) = Normal false.
Proof.
  split.
  - destruct (proj1 (submit_one_message_one_request sample_parser (typed (js "  hi "))))
      as [p' [H _]].
    + vm_compute. discriminate.
    + rewrite H. reflexivity.
  - destruct (proj2 (submit_one_message_one_request sample_parser (typed (js "   "))))
      as [H _].
    + vm_compute. reflexivity.
    + rewrite H. reflexivity.
Defined.

(** What the [try] block does with a body that parses to an object: a
    [response] field holding a non-empty string is appended as the ai
    Message; a missing field, or an empty string, gives the ai Message with
    the fixed text "Sorry, I encountered an error. Please try again.". The
    lookup by id comes first and detaches what it finds, which need not be
    the typing indicator when a message carries its id. *)
Theorem reply_or_soft_failure (parseHTML : jsstring -> list node)
    (r : completion http_response) (p : page) (props : list (jsstring * json)) :
  parsed r = Normal (JObj props) ->
  let shows (t : jsstring) :=
    exists p',
      submit_settle parseHTML r p = (Normal tt, p') /\
      chatMessages p' =
        without_indicator (chatMessages p) ++ [message_node parseHTML t (js "ai")] /\
      calls p' =
        calls p ++ removal_calls (chatMessages p) ++ reply_calls parseHTML t ++ cleanup_calls in
  (forall s, lookup (js "response") props = Some (JStr s) -> s <> [] -> shows s) /\
  (lookup (js "response") props = None \/ lookup (js "response") props = Some (JStr []) ->
   shows soft_failure_text).
Proof.
  intros Hr shows. split.
  - intros s Hl Hs. exists (replied parseHTML s p). split; [|split; reflexivity].
    apply submit_settle_replies with (data := JObj props); auto.
    unfold reply_text, get_member, or_else. rewrite Hl. simpl.
    apply jseqb_nil in Hs. now rewrite Hs.
  - intros Hl. exists (replied parseHTML soft_failure_text p).
    split; [|split; reflexivity].
    apply submit_settle_replies with (data := JObj props); auto.
    unfold reply_text, get_member, or_else. destruct Hl as [-> | ->]; reflexivity.
Qed.

Lemma reply_or_soft_failure_witness :
  chatMessages (snd (submit_settle sample_parser hello_response (waiting (js "hi")))) =
    [message_node sample_parser (js "hi") (js "user");
     message_node sample_parser (js "Hello") (js "ai")] /\
  chatMessages (snd (submit_settle sample_parser empty_object_response (waiting (js "hi")))) =
    [message_node sample_parser (js "hi") (js "user");
     message_node sample_parser soft_failure_text (js "ai")].
Proof.
  split.
  - destruct (proj1 (reply_or_soft_failure sample_parser hello_response
                       (waiting (js "hi")) (props := [(js "response", JStr (js "Hello"))])
                       eq_refl) (js "Hello")) as [p' [H [Hc _]]].
    + reflexivity.
    + vm_compute. discriminate.
    + rewrite H. simpl snd. rewrite Hc. vm_compute. reflexivity.
  - destruct (proj2 (reply_or_soft_failure sample_parser empty_object_response
                       (waiting (js "hi")) (props := []) eq_refl)) as [p' [H [Hc _]]].
    + left. reflexivity.
    + rewrite H. simpl snd. rewrite Hc. vm_compute. reflexivity.
Defined.

(** What the [catch] block does when the request cannot complete ([fetch]
    rejects, or the body cannot be read as JSON): the lookup by id detaches
    what it finds, the ai Message "Unable to connect to the server." is
    appended, the error is reported on the console, and the handler ends
    normally. What the lookup finds need not be the typing indicator when
    a message carries its id. *)
Theorem transport_failure_reported (parseHTML : jsstring -> list node)
    (r : completion http_response) (e : exn) (p : page) :
  parsed r = Throw e ->
  exists p',
    submit_settle parseHTML r p = (Normal tt, p') /\
    chatMessages p' =
      without_indicator (chatMessages p) ++
      [message_node parseHTML transport_failure_text (js "ai")] /\
    calls p' =
      calls p ++ removal_calls (chatMessages p) ++
      reply_calls parseHTML transport_failure_text ++ [ConsoleError e] ++ cleanup_calls.
Proof.
  intros Hr. exists (failed parseHTML e (chatMessages p) [] p).
  split; [now apply submit_settle_fails|split; reflexivity].
Qed.

Lemma transport_failure_reported_witness :
  chatMessages (snd (submit_settle sample_parser network_down (waiting (js "hi")))) =
    [message_node sample_parser (js "hi") (js "user");
     message_node sample_parser transport_failure_text (js "ai")] /\
  filter is_console_error
    (calls (snd (submit_settle sample_parser not_json (waiting (js "hi"))))) =
    [ConsoleError SyntaxError].
Proof.
  split.
  - destruct (transport_failure_reported sample_parser network_down
                (e := TypeError) (waiting (js "hi")) eq_refl) as [p' [H [Hc _]]].
    rewrite H. simpl snd. rewrite Hc. vm_compute. reflexivity.
  - destruct (transport_failure_reported sample_parser not_json
                (e := SyntaxError) (waiting (js "hi")) eq_refl) as [p' [H [_ Hc]]].
    rewrite H. simpl snd. rewrite Hc. vm_compute. reflexivity.
Defined.

(** C4. However the request ends, the cleanup step runs and the handler
    ends normally: after the submit handler the input field is enabled and
    has the focus, after the refresh handler the button is enabled and no
    longer spinning; the action is back to Idle and the suspended call is
    gone. *)
Theorem cleanup_always_runs (parseHTML : jsstring -> list node)
    (r : completion http_response) :
  (forall p, exists p' mid,
     submit_settle parseHTML r p = (Normal tt, p') /\
     userInput_disabled p' = false /\ userInput_focused p' = true /\
     chat_phase p' = Idle /\
     calls p' = calls p ++ mid ++ cleanup_calls) /\
  (forall p, exists p' mid,
     refresh_settle r p = (Normal tt, p') /\
     refreshBtn_disabled p' = false /\ spinning p' = false /\
     refresh_phase p' = Idle /\
     calls p' = calls p ++ mid ++ refresh_cleanup_calls) /\
  (forall s i h,
     nth_error (pending s) i = Some h ->
     let s' := step parseHTML (Settles i r) s in
     pending s' = drop_nth i (pending s) /\
     match h with
     | ChatCall => chat_phase (pg s') = Idle /\ userInput_focused (pg s') = true
     | RefreshCall => refresh_phase (pg s') = Idle /\ spinning (pg s') = false
     end).
Proof.
  assert (Hs : forall p, exists p' mid,
     submit_settle parseHTML r p = (Normal tt, p') /\
     userInput_disabled p' = false /\ userInput_focused p' = true /\
     chat_phase p' = Idle /\
     calls p' = calls p ++ mid ++ cleanup_calls).
  { intros p.
    destruct (submit_settle_cases parseHTML r p)
      as [[data [t [_ [_ H]]]] | [[e [_ H]] | [data [e [_ [_ H]]]]]];
      rewrite H; eexists; eexists; (split; [reflexivity|]);
      (split; [reflexivity|]); (split; [reflexivity|]); (split; [reflexivity|]);
      unfold replied, failed, settled; cbn [calls]; f_equal.
    - rewrite app_assoc. reflexivity.
    - rewrite !app_assoc. reflexivity.
    - rewrite !app_assoc. reflexivity. }
  assert (Hf : forall p, exists p' mid,
     refresh_settle r p = (Normal tt, p') /\
     refreshBtn_disabled p' = false /\ spinning p' = false /\
     refresh_phase p' = Idle /\
     calls p' = calls p ++ mid ++ refresh_cleanup_calls).
  { intros p. destruct (refresh_settle_cases r p) as [t [H _]].
    rewrite H. eexists; eexists. split; [reflexivity|]. split; [reflexivity|].
    split; [apply has_class_remove|]. split; reflexivity. }
  split; [exact Hs|]. split; [exact Hf|].
  intros s i h Hn s'. subst s'. unfold step. rewrite Hn. destruct h.
  - destruct (Hs (pg s)) as [p' [mid [H [H1 [H2 [H3 _]]]]]].
    cbn [pg pending]. rewrite H. auto.
  - destruct (Hf (pg s)) as [p' [mid [H [H1 [H2 [H3 _]]]]]].
    cbn [pg pending]. rewrite H. auto.
Qed.

Lemma cleanup_always_runs_witness :
  let s := {| pg := waiting (js "hi"); pending := [ChatCall] |} in
  chat_phase (pg s) = Pending /\
  pending (step sample_parser (Settles 0 network_down) s) = [] /\
  chat_phase (pg (step sample_parser (Settles 0 network_down) s)) = Idle.
Proof.
  intros s. split; [reflexivity|].
  destruct (proj2 (proj2 (cleanup_always_runs sample_parser network_down))
              s 0 ChatCall eq_refl) as [H1 [H2 _]].
  split; [exact H1 | exact H2].
Defined.

(** C6, as the code has it. When the refresh request settles the Toast
    shows: the [message] field when that is a non-empty string (in general
    the string conversion of a truthy [message]); "Data refreshed!" when
    the body is not [null] and [message] is missing or falsy;
    "Failed to refresh data." when [fetch] rejects or the body cannot be
    read as JSON, and also when the body is [null] or a truthy [message]
    cannot be converted to a string. Every settlement is one of these. *)
Theorem refresh_toast_text (r : completion http_response) (p : page) :
  let p' := snd (refresh_settle r p) in
  (forall props m,
     parsed r = Normal (JObj props) ->
     lookup (js "message") props = Some (JStr m) -> m <> [] ->
     text_content (toast_kids p') = m /\ toast_visible p' = true) /\
  (forall props v t,
     parsed r = Normal (JObj props) ->
     lookup (js "message") props = Some v ->
     truthy (Some v) = true -> to_string v = Normal t ->
     text_content (toast_kids p') = t /\ toast_visible p' = true) /\
  (forall props,
     parsed r = Normal (JObj props) ->
     lookup (js "message") props = None \/ lookup (js "message") props = Some (JStr []) ->
     text_content (toast_kids p') = refreshed_text /\ toast_visible p' = true) /\
  (forall e,
     parsed r = Throw e ->
     text_content (toast_kids p') = refresh_failed_text /\ toast_visible p' = true) /\
  (parsed r = Normal JNull ->
   text_content (toast_kids p') = refresh_failed_text /\ toast_visible p' = true) /\
  (forall data v e,
     parsed r = Normal data ->
     get_member data (js "message") = Normal (Some v) ->
     truthy (Some v) = true -> to_string v = Throw e ->
     text_content (toast_kids p') = refresh_failed_text /\ toast_visible p' = true) /\
  (forall data v t,
     parsed r = Normal data ->
     get_member data (js "message") = Normal (Some v) ->
     truthy (Some v) = true -> to_string v = Normal t ->
     text_content (toast_kids p') = t /\ toast_visible p' = true) /\
  (forall data m,
     parsed r = Normal data ->
     get_member data (js "message") = Normal m -> truthy m = false ->
     text_content (toast_kids p') = refreshed_text /\ toast_visible p' = true) /\
  ((exists e, parsed r = Throw e) \/
   parsed r = Normal JNull \/
   (exists data m,
      parsed r = Normal data /\ get_member data (js "message") = Normal m /\
      truthy m = false) \/
   (exists data v,
      parsed r = Normal data /\ get_member data (js "message") = Normal (Some v) /\
      truthy (Some v) = true /\
      ((exists t, to_string v = Normal t) \/ (exists e, to_string v = Throw e)))).
Proof.
  intros p'. subst p'.
  destruct (refresh_settle_cases r p) as [t [H Ht]]. rewrite H. cbn [snd].
  unfold refreshed. cbn [toast_kids toast_classes]. rewrite text_content_set.
  unfold toast_visible. cbn [toast_classes]. rewrite has_class_add.
  assert (Hgen : forall data v t',
     parsed r = Normal data ->
     get_member data (js "message") = Normal (Some v) ->
     truthy (Some v) = true -> to_string v = Normal t' -> t = t').
  { intros data v t' Hr Hg Hv Hs. rewrite Hr in Ht. unfold toast_text in Ht.
    rewrite Hg in Ht. unfold or_else in Ht. now rewrite Hv, Hs in Ht. }
  split; [|split; [|split; [|split; [|split; [|split; [|split; [|split]]]]]]].
  - intros props m Hr Hl Hm. rewrite Hr in Ht. unfold toast_text, get_member in Ht.
    rewrite Hl in Ht. unfold or_else, truthy in Ht. apply jseqb_nil in Hm.
    rewrite Hm in Ht. auto.
  - intros props v t' Hr Hl Hv Hs. split; [|reflexivity].
    apply (Hgen (JObj props) v t'); auto. unfold get_member. now rewrite Hl.
  - intros props Hr Hl. rewrite Hr in Ht. unfold toast_text, get_member in Ht.
    destruct Hl as [Hl|Hl]; rewrite Hl in Ht; auto.
  - intros e Hr. rewrite Hr in Ht. auto.
  - intros Hr. rewrite Hr in Ht. auto.
  - intros data v e Hr Hg Hv Hs. rewrite Hr in Ht. unfold toast_text in Ht.
    rewrite Hg in Ht. unfold or_else in Ht. rewrite Hv, Hs in Ht. auto.
  - intros data v t' Hr Hg Hv Hs. split; [|reflexivity]. now apply (Hgen data v t').
  - intros data m Hr Hg Hm. rewrite Hr in Ht. unfold toast_text in Ht.
    rewrite Hg in Ht. unfold or_else in Ht.
    destruct m as [v|]; [rewrite Hm in Ht|]; auto.
  - clear H Ht Hgen. destruct (parsed r) as [data|e]; [|left; now exists e].
    right. destruct (get_member data (js "message")) as [m|e] eqn:Hg.
    + right. destruct (truthy m) eqn:Hm.
      * right. destruct m as [v|]; [|discriminate]. exists data, v.
        split; [reflexivity|]. split; [exact Hg|]. split; [exact Hm|].
        destruct (to_string v) as [t'|e]; [left; now exists t'|right; now exists e].
      * left. exists data, m. auto.
    + left. destruct data; try discriminate. reflexivity.
Qed.

Lemma refresh_toast_text_witness :
  text_content (toast_kids (snd (refresh_settle
     (answers 200 (js "message") (js "Synced 42 rows")) (pg (loaded []))))) =
    js "Synced 42 rows" /\
  text_content (toast_kids (snd (refresh_settle
     (Normal {| status := 200; json_body := Normal (JObj [(js "message", JBool true)]) |})
     (pg (loaded []))))) = js "true" /\
  text_content (toast_kids (snd (refresh_settle empty_object_response (pg (loaded []))))) =
    refreshed_text /\
  text_content (toast_kids (snd (refresh_settle network_down (pg (loaded []))))) =
    refresh_failed_text /\
  text_content (toast_kids (snd (refresh_settle null_response (pg (loaded []))))) =
    refresh_failed_text /\
  text_content (toast_kids (snd (refresh_settle unconvertible_message (pg (loaded []))))) =
    refresh_failed_text /\
  text_content (toast_kids (snd (refresh_settle
     (Normal {| status := 200; json_body := Normal (JArr []) |}) (pg (loaded []))))) =
    refreshed_text.
Proof.
  split; [|split; [|split; [|split; [|split; [|split]]]]].
  - apply (proj1 (refresh_toast_text (answers 200 (js "message") (js "Synced 42 rows"))
                    (pg (loaded [])))
             [(js "message", JStr (js "Synced 42 rows"))] (js "Synced 42 rows")).
    + reflexivity.
    + reflexivity.
    + vm_compute. discriminate.
  - apply (proj1 (proj2 (refresh_toast_text
             (Normal {| status := 200;
                        json_body := Normal (JObj [(js "message", JBool true)]) |})
             (pg (loaded []))))
             [(js "message", JBool true)] (JBool true) (js "true")); reflexivity.
  - apply (proj1 (proj2 (proj2 (refresh_toast_text empty_object_response (pg (loaded []))))) []).
    + reflexivity.
    + left. reflexivity.
  - apply (proj1 (proj2 (proj2 (proj2 (refresh_toast_text network_down (pg (loaded []))))))
             TypeError).
    reflexivity.
  - apply (proj1 (proj2 (proj2 (proj2 (proj2
             (refresh_toast_text null_response (pg (loaded [])))))))).
    reflexivity.
  - apply (proj1 (proj2 (proj2 (proj2 (proj2 (proj2
             (refresh_toast_text unconvertible_message (pg (loaded []))))))))
             (JObj [(js "message", JObj [(js "toString", JNull)])])
             (JObj [(js "toString", JNull)]) TypeError); reflexivity.
  - apply (proj1 (proj2 (proj2 (proj2 (proj2 (proj2 (proj2 (proj2
             (refresh_toast_text
                (Normal {| status := 200; json_body := Normal (JArr []) |})
                (pg (loaded [])))))))))) (JArr []) None); reflexivity.
Defined.

(** C6 as stated fails: a refresh answered 200 with the body [null]
    completes without any transport failure and carries no [message], yet
    the Toast reads "Failed to refresh data." and not "Data refreshed!"; and
    a [message] that is a non-empty value but cannot be converted to a
    string is not what the Toast shows. *)
Lemma null_body_fails_refresh :
  parsed null_response = Normal JNull /\
  text_content (toast_kids (snd (refresh_settle null_response (pg (loaded []))))) =
    refresh_failed_text /\
  truthy (Some (JObj [(js "toString", JNull)])) = true /\
  text_content (toast_kids (snd (refresh_settle unconvertible_message (pg (loaded []))))) =
    refresh_failed_text.
Proof. vm_compute. repeat split; reflexivity. Qed.

Lemma calls_since_settled f new (p : page) : calls_since p (settled f new p) = new.
Proof. unfold calls_since, settled. cbn [calls]. apply skipn_length_app. Qed.



Lemma existsb_console_removal f : existsb is_console_error (removal_calls f) = false.
Proof. unfold removal_calls. destruct (remove_by_id typing_id f); reflexivity. Qed.

Lemma reply_text_throws data e :
  reply_text data = Throw e <->
  (data = JNull /\ e = TypeError) \/
  (exists v, get_member data (js "response") = Normal (Some v) /\
             truthy (Some v) = true /\ to_string v = Throw e).
Proof.
  unfold reply_text. split.
  - destruct data; simpl; try discriminate.
    + intros H. injection H as <-. auto.
    + intros H. right. destruct (lookup (js "response") props) as [v|] eqn:El;
        [|discriminate].
      unfold or_else in H. destruct (truthy (Some v)) eqn:Et; [|discriminate].
      exists v. auto.
  - intros [[-> ->] | [v [Hg [Ht Hs]]]]; [reflexivity|].
    rewrite Hg. unfold or_else. now rewrite Ht.
Qed.

Lemma reaches_catch_iff (parseHTML : jsstring -> list node) r (p : page) :
  reaches_catch parseHTML r p = true <->
  (exists e, parsed r = Throw e) \/
  (exists data e, parsed r = Normal data /\ reply_text data = Throw e).
Proof.
  unfold reaches_catch.
  destruct (submit_settle_cases parseHTML r p)
    as [[data [t [Hr [Ht H]]]] | [[e [Hr H]] | [data [e [Hr [Ht H]]]]]];
    rewrite H; cbn [snd]; unfold replied, failed; rewrite calls_since_settled;
    rewrite ?existsb_app, ?existsb_console_removal; simpl.
  - split; [discriminate|].
    intros [[e He] | [d [e [Hd He]]]]; congruence.
  - rewrite ?orb_true_r. split; auto. intros _. left. now exists e.
  - rewrite ?orb_true_r. split; auto. intros _. right. now exists data, e.
Qed.

(** C9, as the code has it. The status of the response plays no part: a
    response of any status whose body holds a non-empty [response] string
    is shown as the ai Message. The [catch] block is reached when [fetch]
    rejects, when the body cannot be read as JSON, and also when the parsed
    body makes the [try] block throw: the body is [null], or the [response]
    value is truthy and cannot be converted to a string. *)
Theorem status_plays_no_part (parseHTML : jsstring -> list node) (p : page) :
  (forall st st' b,
     submit_settle parseHTML (Normal {| status := st; json_body := b |}) p =
     submit_settle parseHTML (Normal {| status := st'; json_body := b |}) p) /\
  (forall st props s,
     lookup (js "response") props = Some (JStr s) -> s <> [] ->
     submit_settle parseHTML
       (Normal {| status := st; json_body := Normal (JObj props) |}) p =
     (Normal tt, replied parseHTML s p)) /\
  (forall r,
     reaches_catch parseHTML r p = true <->
     (exists e, parsed r = Throw e) \/
     (exists e, parsed r = Normal JNull /\ e = TypeError) \/
     (exists data v e,
        parsed r = Normal data /\
        get_member data (js "response") = Normal (Some v) /\
        truthy (Some v) = true /\ to_string v = Throw e)).
Proof.
  split; [|split].
  - intros st st' b. reflexivity.
  - intros st props s Hl Hs.
    apply submit_settle_replies with (data := JObj props); [reflexivity|].
    unfold reply_text, get_member, or_else. rewrite Hl. simpl.
    apply jseqb_nil in Hs. now rewrite Hs.
  - intros r. rewrite reaches_catch_iff. split.
    + intros [H | [data [e [Hr He]]]]; [now left|]. right.
      apply reply_text_throws in He as [[-> ->] | [v [Hg [Ht Hs]]]].
      * left. now exists TypeError.
      * right. now exists data, v, e.
    + intros [H | [[e [Hr ->]] | [data [v [e [Hr [Hg [Ht Hs]]]]]]]]; [now left| |].
      * right. exists JNull, TypeError. split; auto.
      * right. exists data, e. split; auto. apply reply_text_throws. right.
        now exists v.
Qed.

Lemma status_plays_no_part_witness :
  chatMessages (snd (submit_settle sample_parser
                       (answers 500 (js "response") (js "Hello")) (waiting (js "hi")))) =
    [message_node sample_parser (js "hi") (js "user");
     message_node sample_parser (js "Hello") (js "ai")] /\
  reaches_catch sample_parser not_json (waiting (js "hi")) = true.
Proof.
  split.
  - unfold answers.
    rewrite (proj1 (proj2 (status_plays_no_part sample_parser (waiting (js "hi"))))
               500 [(js "response", JStr (js "Hello"))] (js "Hello")).
    + vm_compute. reflexivity.
    + reflexivity.
    + vm_compute. discriminate.
  - apply (proj2 (proj2 (status_plays_no_part sample_parser (waiting (js "hi")))) not_json).
    left. exists SyntaxError. reflexivity.
Defined.

(** C9 as stated fails: a body that is the JSON value [null] is fetched and
    parsed without error, and the handler still ends in its [catch] block. *)
Lemma null_body_reaches_catch :
  ~ (forall r p, reaches_catch sample_parser r p = true -> exists e, parsed r = Throw e).
Proof.
  intros H. destruct (H null_response (waiting (js "hi"))) as [e He].
  - vm_compute. reflexivity.
  - discriminate.
Qed.

(** C10. [addMessage] hands the text, spliced as it is between the opening
    and closing tags of the content wrapper, to the HTML parser: the children
    of the message element are what the parser makes of that string, for the
    text the user typed and for the [response] string of the server alike.
    [showToast], which assigns [textContent], stores the string as one text
    node instead. *)
Theorem messages_are_parsed_as_markup (parseHTML : jsstring -> list node) :
  (forall t sender p,
     exists p',
       addMessage parseHTML (JStr t) sender p = (Normal tt, p') /\
       chatMessages p' = chatMessages p ++ [message_node parseHTML t sender]) /\
  (forall t sender,
     kids_of (message_node parseHTML t sender) =
     parseHTML (js "<div class=" ++ dq ++ js "content" ++ dq ++ js ">" ++ t ++ js "</div>")) /\
  (forall p,
     trim (userInput_value p) <> [] ->
     In (message_node parseHTML (trim (userInput_value p)) (js "user"))
        (chatMessages (snd (submit_begin parseHTML p)))) /\
  (forall r p props s,
     parsed r = Normal (JObj props) ->
     lookup (js "response") props = Some (JStr s) -> s <> [] ->
     In (message_node parseHTML s (js "ai"))
        (chatMessages (snd (submit_settle parseHTML r p)))) /\
  (forall t p,
     t <> [] -> toast_kids (snd (showToast (JStr t) p)) = [TextNode t]).
Proof.
  split; [|split; [|split; [|split]]].
  - intros t sender p. eexists. split; [reflexivity|]. reflexivity.
  - intros t sender. reflexivity.
  - intros p Hq. rewrite (submit_begin_sends parseHTML p Hq). cbn [snd].
    unfold sent. cbn [chatMessages]. apply in_or_app. right. now left.
  - intros r p props s Hr Hl Hs.
    rewrite (submit_settle_replies parseHTML r (data := JObj props) (t := s) p Hr).
    + cbn [snd]. unfold replied, settled. cbn [chatMessages].
      apply in_or_app. right. now left.
    + unfold reply_text, get_member, or_else. rewrite Hl. simpl.
      apply jseqb_nil in Hs. now rewrite Hs.
  - intros t p Ht. destruct t; [congruence|]. reflexivity.
Qed.

Lemma messages_are_parsed_as_markup_witness :
  In (Elem (js "div") [] [js "message"; js "user"]
        [Elem (js "div") [] [js "content"] [Elem (js "i") typing_id [] []]])
     (chatMessages (snd (submit_begin sample_parser (typed decoy_markup)))) /\
  In (Elem (js "div") [] [js "message"; js "ai"]
        [Elem (js "div") [] [js "content"] [Elem (js "i") typing_id [] []]])
     (chatMessages (snd (submit_settle sample_parser
                           (answers 200 (js "response") decoy_markup)
                           (waiting (js "hi"))))) /\
  toast_kids (snd (showToast (JStr decoy_markup) (pg (loaded [])))) =
    [TextNode decoy_markup].
Proof.
  split; [|split].
  - apply (proj1 (proj2 (proj2 (messages_are_parsed_as_markup sample_parser)))
             (typed decoy_markup)).
    vm_compute. discriminate.
  - apply (proj1 (proj2 (proj2 (proj2 (messages_are_parsed_as_markup sample_parser))))
             (answers 200 (js "response") decoy_markup) (waiting (js "hi"))
             [(js "response", JStr decoy_markup)] decoy_markup).
    + reflexivity.
    + reflexivity.
    + vm_compute. discriminate.
  - apply (proj2 (proj2 (proj2 (proj2 (messages_are_parsed_as_markup sample_parser))))).
    vm_compute. discriminate.
Defined.

(** ** The toast and its timeouts *)

Lemma class_remove_idem c cs : class_remove c (class_remove c cs) = class_remove c cs.
Proof.
  unfold class_remove. induction cs as [|x cs IH]; simpl; auto.
  destruct (negb (jseqb x c)) eqn:E; simpl; rewrite ?E, IH; reflexivity.
Qed.

(** Running the timeout callback once for each element of [l]. *)
Lemma hideToast_fold {A} (l : list A) (q : page) :
  let q' := fold_left (fun q _ => snd (hideToast q)) l q in
  chatMessages q' = chatMessages q /\ userInput_value q' = userInput_value q /\
  userInput_disabled q' = userInput_disabled q /\ userInput_focused q' = userInput_focused q /\
  refreshBtn_disabled q' = refreshBtn_disabled q /\ refreshBtn_classes q' = refreshBtn_classes q /\
  toast_kids q' = toast_kids q /\ clock q' = clock q /\ timers q' = timers q /\
  toast_classes q' =
    match l with
    | [] => toast_classes q
    | _ :: _ => class_remove (js "show") (toast_classes q)
    end.
Proof.
  revert q. induction l as [|a l IH]; intros q; cbn [fold_left].
  - repeat (split; [reflexivity|]). reflexivity.
  - specialize (IH (snd (hideToast q))). cbv zeta in IH.
    destruct IH as (H1 & H2 & H3 & H4 & H5 & H6 & H7 & H8 & H9 & H10).
    cbv zeta. rewrite H1, H2, H3, H4, H5, H6, H7, H8, H9, H10.
    repeat (split; [reflexivity|]).
    destruct l; [reflexivity|]. run_js. apply class_remove_idem.
Qed.

Lemma elapse_frame d (p : page) :
  chatMessages (elapse d p) = chatMessages p /\
  userInput_value (elapse d p) = userInput_value p /\
  userInput_disabled (elapse d p) = userInput_disabled p /\
  userInput_focused (elapse d p) = userInput_focused p /\
  refreshBtn_disabled (elapse d p) = refreshBtn_disabled p /\
  refreshBtn_classes (elapse d p) = refreshBtn_classes p /\
  toast_kids (elapse d p) = toast_kids p.
Proof.
  unfold elapse. cbv zeta.
  pose proof (hideToast_fold (filter (fun x => x <=? clock p + d) (timers p))
                (with_timers (filter (fun x => negb (x <=? clock p + d)) (timers p))
                             (with_clock (clock p + d) p))) as H.
  cbv zeta in H. destruct H as (H1 & H2 & H3 & H4 & H5 & H6 & H7 & _).
  rewrite H1, H2, H3, H4, H5, H6, H7. repeat (split; [reflexivity|]). reflexivity.
Qed.

(** After [d] milliseconds the toast is still shown exactly when it was
    shown and no pending timeout has fallen due. *)
Lemma elapse_visible d (p : page) :
  toast_visible (elapse d p) =
    toast_visible p && forallb (fun due => clock p + d <? due) (timers p).
Proof.
  unfold elapse, toast_visible. cbv zeta.
  pose proof (hideToast_fold (filter (fun x => x <=? clock p + d) (timers p))
                (with_timers (filter (fun x => negb (x <=? clock p + d)) (timers p))
                             (with_clock (clock p + d) p))) as H.
  cbv zeta in H. destruct H as (_ & _ & _ & _ & _ & _ & _ & _ & _ & H).
  rewrite H. cbn [toast_classes with_timers with_clock]. clear H.
  induction (timers p) as [|x l IH]; cbn [filter forallb].
  - now rewrite andb_true_r.
  - rewrite (Nat.ltb_antisym x (clock p + d)).
    destruct (x <=? clock p + d); cbn [negb andb].
    + rewrite has_class_remove. now rewrite andb_false_r.
    + exact IH.
Qed.

(** C7, as the code has it. [showToast] replaces the text, shows the toast
    and schedules one more dismissal 3000 ms ahead; the dismissals scheduled
    before stay scheduled (nothing is queued and nothing is cancelled). The
    toast is hidden as soon as any pending dismissal falls due: it stays
    for the full 3000 ms exactly when no dismissal scheduled before falls
    due earlier than its own, in particular when none was pending. *)
Theorem toast_hidden_by_earliest_timeout (t : jsstring) (p : page) :
  let p' := snd (showToast (JStr t) p) in
  text_content (toast_kids p') = t /\
  toast_visible p' = true /\
  timers p' = timers p ++ [clock p + toast_ms] /\
  (forall d,
     toast_visible (elapse d p') =
     forallb (fun due => clock p + d <? due) (timers p ++ [clock p + toast_ms])) /\
  (timers p = [] -> forall d, toast_visible (elapse d p') = (d <? toast_ms)) /\
  ((forall d, d < toast_ms -> toast_visible (elapse d p') = true) <->
   Forall (fun due => clock p + toast_ms <= due) (timers p)).
Proof.
  assert (Hv : toast_visible (snd (showToast (JStr t) p)) = true).
  { run_js. unfold toast_visible. cbn [toast_classes]. apply has_class_add. }
  assert (Ht : timers (snd (showToast (JStr t) p)) = timers p ++ [clock p + toast_ms])
    by reflexivity.
  assert (Hc : clock (snd (showToast (JStr t) p)) = clock p) by reflexivity.
  assert (He : forall d,
     toast_visible (elapse d (snd (showToast (JStr t) p))) =
     forallb (fun due => clock p + d <? due) (timers p ++ [clock p + toast_ms])).
  { intros d. rewrite elapse_visible, Hv, Ht, Hc. reflexivity. }
  cbv zeta.
  split; [|split; [exact Hv|split; [exact Ht|split; [exact He|split]]]].
  - run_js. apply text_content_set.
  - intros Hn d. rewrite He, Hn. cbn [app forallb]. rewrite andb_true_r.
    destruct (Nat.ltb_spec (clock p + d) (clock p + toast_ms));
      destruct (Nat.ltb_spec d toast_ms); auto; lia.
  - split.
    + intros Hall. apply Forall_forall. intros due Hin.
      destruct (Nat.le_gt_cases (clock p + toast_ms) due) as [Hle|Hlt]; [exact Hle|].
      exfalso. assert (Hd : due - clock p < toast_ms) by (unfold toast_ms in *; lia).
      specialize (Hall (due - clock p) Hd). rewrite He in Hall.
      rewrite forallb_forall in Hall.
      specialize (Hall due (in_or_app _ _ _ (or_introl Hin))).
      apply Nat.ltb_lt in Hall. lia.
    + intros Hall d Hd. rewrite He. apply forallb_forall. intros due Hin.
      apply Nat.ltb_lt. apply in_app_or in Hin as [Hin | [<- | []]]; [|lia].
      rewrite Forall_forall in Hall. specialize (Hall due Hin). lia.
Qed.

Lemma toast_hidden_by_earliest_timeout_witness :
  toast_visible (elapse 2999 (snd (showToast (JStr (js "first")) (pg (loaded []))))) = true /\
  toast_visible (elapse 3000 (snd (showToast (JStr (js "first")) (pg (loaded []))))) = false /\
  toast_visible (elapse 2999 (snd (showToast (JStr (js "second"))
                   (snd (showToast (JStr (js "first")) (pg (loaded []))))))) = true.
Proof.
  split; [|split].
  - rewrite (proj1 (proj2 (proj2 (proj2 (proj2
               (toast_hidden_by_earliest_timeout (js "first") (pg (loaded [])))))))
               eq_refl 2999).
    vm_compute. reflexivity.
  - rewrite (proj1 (proj2 (proj2 (proj2 (proj2
               (toast_hidden_by_earliest_timeout (js "first") (pg (loaded [])))))))
               eq_refl 3000).
    vm_compute. reflexivity.
  - apply (proj2 (proj2 (proj2 (proj2 (proj2 (proj2
             (toast_hidden_by_earliest_timeout (js "second")
                (snd (showToast (JStr (js "first")) (pg (loaded []))))))))))).
    + vm_compute. repeat constructor.
    + unfold toast_ms. lia.
Defined.

(** C7 as stated fails: a second toast, shown 2000 ms after the first and
    while it is still visible, is hidden 1000 ms later by the timeout of the
    first. *)
Lemma second_toast_cut_short :
  let s := run sample_parser two_toasts (loaded []) in
  text_content (toast_kids (pg s)) = js "second" /\
  toast_visible (pg s) = true /\
  clock (pg s) = 2000 /\
  toast_visible (pg (step sample_parser (Elapse 1000) s)) = false /\
  text_content (toast_kids (pg (step sample_parser (Elapse 1000) s))) = js "second".
Proof. vm_compute. repeat split; reflexivity. Qed.

(** ** The typing indicator *)

Lemma node_forest_ind (P : node -> Prop) (Q : list node -> Prop) :
  (forall d, P (TextNode d)) ->
  (forall t i c ks, Q ks -> P (Elem t i c ks)) ->
  Q [] ->
  (forall n r, P n -> Q r -> Q (n :: r)) ->
  forall f, Q f.
Proof.
  intros HT HE HN HC.
  assert (HP : forall n, P n).
  { exact (fix IH (n : node) : P n :=
             match n with
             | TextNode d => HT d
             | Elem t i c ks =>
                 HE t i c ks
                    ((fix go (l : list node) : Q l :=
                        match l with
                        | [] => HN
                        | x :: r => HC x r (IH x) (go r)
                        end) ks)
             end). }
  induction f; auto.
Qed.

Lemma count_ids_app i (f g : list node) :
  count_ids i (f ++ g) = count_ids i f + count_ids i g.
Proof. unfold count_ids. now rewrite map_app, list_sum_app. Qed.

Lemma count_ids_cons i n (f : list node) :
  count_ids i (n :: f) = count_id i n + count_ids i f.
Proof. reflexivity. Qed.

Lemma has_id_count i n : has_id i n = true -> 1 <= count_id i n.
Proof.
  destruct n as [d|t j c ks]; simpl; [discriminate|].
  intros ->. lia.
Qed.

(** Detaching the first element with the id: nothing to detach means no
    element has the id, and detaching leaves fewer of them. *)
Lemma remove_by_id_count i (f : list node) :
  (remove_by_id i f = None -> count_ids i f = 0) /\
  (forall f', remove_by_id i f = Some f' -> count_ids i f' < count_ids i f).
Proof.
  revert f.
  apply (node_forest_ind
    (fun n =>
       (remove_inside i n = None -> has_id i n = false -> count_id i n = 0) /\
       (forall n', remove_inside i n = Some n' -> count_id i n' < count_id i n))).
  - intros d. split; [reflexivity|discriminate].
  - intros t j c ks [HN HS]. cbn [remove_inside]. fold (remove_by_id i ks). split.
    + destruct (remove_by_id i ks); [discriminate|].
      intros _ Hj. simpl in Hj. simpl. rewrite Hj.
      fold (count_ids i ks). now rewrite HN.
    + intros n'. destruct (remove_by_id i ks) as [ks'|]; [|discriminate].
      intros H. injection H as <-. simpl.
      fold (count_ids i ks) (count_ids i ks'). specialize (HS ks' eq_refl). lia.
  - split; [reflexivity|discriminate].
  - intros n r [PN PS] [QN QS]. unfold remove_by_id. cbn [remove_first].
    fold (remove_by_id i r). rewrite !count_ids_cons.
    destruct (has_id i n) eqn:Hid.
    + split; [discriminate|]. intros f' H. injection H as <-.
      apply has_id_count in Hid. lia.
    + destruct (remove_inside i n) as [n'|].
      * split; [discriminate|]. intros f' H. injection H as <-.
        rewrite count_ids_cons. specialize (PS n' eq_refl). lia.
      * destruct (remove_by_id i r) as [r'|]; cbn [option_map].
        -- split; [discriminate|]. intros f' H. injection H as <-.
           rewrite count_ids_cons. specialize (QS r' eq_refl). lia.
        -- split; [|discriminate]. intros _. rewrite PN, QN; auto.
Qed.

Lemma without_indicator_count (f : list node) :
  count_ids typing_id f <= 1 -> count_ids typing_id (without_indicator f) = 0.
Proof.
  intros H. unfold without_indicator.
  destruct (remove_by_id typing_id f) as [f'|] eqn:E.
  - apply remove_by_id_count in E. lia.
  - now apply remove_by_id_count in E.
Qed.

Lemma without_indicator_none (f : list node) :
  count_ids typing_id f = 0 -> remove_by_id typing_id f = None.
Proof.
  intros H. destruct (remove_by_id typing_id f) as [f'|] eqn:E; auto.
  apply remove_by_id_count in E. lia.
Qed.

Lemma chat_pending_app l h :
  chat_pending (l ++ [h]) = chat_pending l + (if is_chat h then 1 else 0).
Proof.
  unfold chat_pending. rewrite filter_app, length_app. simpl.
  destruct (is_chat h); reflexivity.
Qed.

Lemma chat_pending_drop l i h :
  nth_error l i = Some h ->
  chat_pending (drop_nth i l) + (if is_chat h then 1 else 0) = chat_pending l.
Proof.
  unfold chat_pending. revert i. induction l as [|x l IH]; intros [|i]; simpl;
    try discriminate.
  - intros H. injection H as ->. destruct (is_chat h); simpl; lia.
  - intros H. apply IH in H. destruct (is_chat x); simpl; lia.
Qed.

Lemma count_calls_app f (a b : list call) :
  count_calls f (a ++ b) = count_calls f a + count_calls f b.
Proof. unfold count_calls. now rewrite filter_app, length_app. Qed.

Lemma removal_calls_count (f : list node) :
  count_calls is_node_remove (removal_calls f) =
    match remove_by_id typing_id f with Some _ => 1 | None => 0 end.
Proof. unfold removal_calls. destruct (remove_by_id typing_id f); reflexivity. Qed.

Section Indicator.

Variable parseHTML : jsstring -> list node.

Lemma count_id_message_node t sender :
  count_id typing_id (message_node parseHTML t sender) =
  count_ids typing_id (parseHTML (content_markup t)).
Proof. reflexivity. Qed.

Lemma count_id_indicator_node :
  count_id typing_id (indicator_node parseHTML) =
  S (count_ids typing_id (parseHTML indicator_markup)).
Proof. reflexivity. Qed.

(** The page after the submit handler has run to its end, whatever the
    outcome: the ai Message with [shown_text r] comes last; if at most one
    indicator was there none is left, and if exactly one was there exactly
    one node was removed. *)
Lemma submit_settle_page r (p : page) :
  exists f new,
    submit_settle parseHTML r p =
      (Normal tt,
       settled (f ++ [message_node parseHTML (shown_text r) (js "ai")]) new p) /\
    (count_ids typing_id (chatMessages p) <= 1 -> count_ids typing_id f = 0) /\
    (count_ids typing_id (chatMessages p) = 1 ->
     count_calls is_node_remove new = 1).
Proof.
  assert (Hone : count_ids typing_id (chatMessages p) = 1 ->
                 exists f', remove_by_id typing_id (chatMessages p) = Some f' /\
                            count_ids typing_id f' = 0).
  { intros H1. destruct (remove_by_id typing_id (chatMessages p)) as [f'|] eqn:E.
    - exists f'. split; auto. apply remove_by_id_count in E. lia.
    - apply remove_by_id_count in E. lia. }
  unfold shown_text.
  destruct (submit_settle_cases parseHTML r p)
    as [[data [t [Hr [Ht H]]]] | [[e [Hr H]] | [data [e [Hr [Ht H]]]]]];
    rewrite H, Hr, ?Ht; unfold replied, failed.
  - eexists. eexists. split; [reflexivity|]. split.
    + apply without_indicator_count.
    + intros H1. rewrite !count_calls_app, removal_calls_count.
      destruct (Hone H1) as [f' [-> _]]. reflexivity.
  - eexists. eexists. split; [reflexivity|]. split.
    + apply without_indicator_count.
    + intros H1. rewrite !count_calls_app, removal_calls_count.
      destruct (Hone H1) as [f' [-> _]]. reflexivity.
  - eexists. eexists. split; [reflexivity|]. split.
    + intros H1. apply without_indicator_count.
      rewrite without_indicator_count; auto.
    + intros H1. rewrite !count_calls_app, !removal_calls_count.
      unfold without_indicator. destruct (Hone H1) as [f' [-> H0]].
      rewrite (without_indicator_none f' H0). reflexivity.
Qed.

Hypothesis template_clean : count_ids typing_id (parseHTML indicator_markup) = 0.

Lemma step_steady e s :
  steady s ->
  forallb (inert parseHTML) (renders e s) = true ->
  steady (step parseHTML e s).
Proof.
  intros Hs Hin. pose proof Hs as (Hi & Hle & Hdis).
  unfold steady, indicators in *.
  destruct e as [v | | | i r | d]; unfold step.
  - destruct (userInput_disabled (pg s)) eqn:Ed.
    + rewrite Ed. exact Hs.
    + cbn [pg pending chatMessages with_userInput_value userInput_disabled userInput_value].
      split; [exact Hi|]. split; [exact Hle|].
      intros H1. destruct (Hdis H1) as [Hd _]. discriminate.
  - unfold renders in Hin. cbv zeta in Hin.
    destruct (jseqb (trim (userInput_value (pg s))) []) eqn:Eq.
    + apply jseqb_eq in Eq. rewrite (submit_begin_ignores parseHTML (pg s) Eq).
      exact Hs.
    + assert (Hq : trim (userInput_value (pg s)) <> []) by now apply jseqb_nil.
      rewrite (submit_begin_sends parseHTML (pg s) Hq).
      assert (H0 : chat_pending (pending s) = 0).
      { destruct (chat_pending (pending s)) as [|[|n]] eqn:En; [reflexivity| |lia].
        destruct (Hdis eq_refl) as [_ Hv]. rewrite Hv in Hq.
        exfalso. apply Hq. reflexivity. }
      cbn [pg pending]. unfold sent. cbn [chatMessages userInput_disabled userInput_value].
      rewrite chat_pending_app. cbn [is_chat]. rewrite H0 in *.
      rewrite count_ids_app, Hi, !count_ids_cons.
      rewrite count_id_message_node, count_id_indicator_node, template_clean.
      cbn [forallb] in Hin. rewrite andb_true_r in Hin.
      unfold inert in Hin. apply Nat.eqb_eq in Hin. rewrite Hin.
      split; [reflexivity|]. split; [lia|]. intros _. split; reflexivity.
  - destruct (refreshBtn_disabled (pg s)); [exact Hs|].
    cbn [pg pending]. rewrite chat_pending_app. cbn [is_chat].
    rewrite Nat.add_0_r. exact Hs.
  - unfold renders in Hin.
    destruct (nth_error (pending s) i) as [[|]|] eqn:En; [| |exact Hs].
    + apply chat_pending_drop in En. cbn [is_chat] in En.
      assert (H1 : chat_pending (pending s) = 1) by lia.
      destruct (submit_settle_page r (pg s)) as [f [new [H [Hf _]]]].
      rewrite H. cbn [pg pending snd]. unfold settled. cbn [chatMessages].
      rewrite count_ids_app, count_ids_cons, count_id_message_node.
      cbn [forallb] in Hin. rewrite andb_true_r in Hin.
      unfold inert in Hin. apply Nat.eqb_eq in Hin. rewrite Hin.
      rewrite Hf by lia. split; [cbn; lia|]. split; [lia|]. intros; lia.
    + apply chat_pending_drop in En. cbn [is_chat] in En.
      rewrite Nat.add_0_r in En.
      destruct (refresh_settle_cases r (pg s)) as [t [H _]].
      rewrite H. cbn [pg pending snd]. rewrite En. exact Hs.
  - cbn [pg pending].
    destruct (elapse_frame d (pg s)) as (H1 & H2 & H3 & _).
    rewrite H1, H2, H3. exact Hs.
Qed.

Lemma run_steady es s :
  steady s ->
  forallb (inert parseHTML) (rendered parseHTML es s) = true ->
  steady (run parseHTML es s).
Proof.
  revert s. induction es as [|e es IH]; intros s Hs Hin; [exact Hs|].
  cbn [rendered] in Hin. rewrite forallb_app in Hin.
  apply andb_true_iff in Hin as [He Hes].
  unfold run. cbn [fold_left]. apply IH; auto using step_steady.
Qed.

End Indicator.

Lemma loaded_steady welcome : count_ids typing_id welcome = 0 -> steady (loaded welcome).
Proof.
  intros H. unfold steady, indicators, loaded. cbn.
  split; [exact H|]. split; [lia|]. discriminate.
Qed.

(** Away from a collision on the id. Take a page loaded without an element
    of id [typing-indicator], a parser that finds none in the indicator's own
    template, and a run of events in which no text rendered as a message
    makes the parser create one. Then at every point of the run the log
    holds as many indicator elements as there are queries waiting for a
    reply, which is at most one: the indicator appears when a query is sent
    and is gone when its request settles. Settling removes exactly one
    node, on every outcome. *)
Theorem typing_indicator_singleton (parseHTML : jsstring -> list node)
    (welcome : list node) (es : list event) :
  count_ids typing_id welcome = 0 ->
  count_ids typing_id (parseHTML indicator_markup) = 0 ->
  forallb (inert parseHTML) (rendered parseHTML es (loaded welcome)) = true ->
  let s := run parseHTML es (loaded welcome) in
  indicators s <= 1 /\
  indicators s = chat_pending (pending s) /\
  (trim (userInput_value (pg s)) <> [] ->
   inert parseHTML (trim (userInput_value (pg s))) = true ->
   indicators s = 0 /\ indicators (step parseHTML SubmitForm s) = 1) /\
  (forall i r,
     nth_error (pending s) i = Some ChatCall ->
     indicators s = 1 /\
     count_calls is_node_remove
       (calls_since (pg s) (pg (step parseHTML (Settles i r) s))) = 1 /\
     (inert parseHTML (shown_text r) = true ->
      indicators (step parseHTML (Settles i r) s) = 0)).
Proof.
  intros Hw Ht Hin s.
  assert (Hs : steady s).
  { apply run_steady; auto using loaded_steady. }
  pose proof Hs as (Hi & Hle & Hdis).
  split; [lia|]. split; [exact Hi|]. split.
  - intros Hq Hinert.
    assert (Hs' : steady (step parseHTML SubmitForm s)).
    { apply step_steady; auto. unfold renders. cbv zeta.
      apply jseqb_nil in Hq. rewrite Hq. cbn [forallb]. now rewrite Hinert. }
    destruct Hs' as (Hi' & Hle' & _). revert Hi' Hle'.
    unfold step. rewrite (submit_begin_sends parseHTML (pg s) Hq).
    cbn [pending]. rewrite chat_pending_app. cbn [is_chat]. lia.
  - intros i r Hn.
    pose proof (chat_pending_drop _ _ Hn) as Hd. cbn [is_chat] in Hd.
    assert (H1 : indicators s = 1) by lia.
    split; [exact H1|]. split.
    + unfold step. rewrite Hn. cbn [pg].
      destruct (submit_settle_page parseHTML r (pg s)) as [f [new [H [_ Hr]]]].
      rewrite H. cbn [snd]. rewrite calls_since_settled. now apply Hr.
    + intros Hinert.
      assert (Hs' : steady (step parseHTML (Settles i r) s)).
      { apply step_steady; auto. unfold renders. rewrite Hn.
        cbn [forallb]. now rewrite Hinert. }
      destruct Hs' as (Hi' & _ & _). rewrite Hi'.
      unfold step. rewrite Hn. cbn [pending]. lia.
Qed.

Lemma typing_indicator_singleton_witness :
  indicators (run sample_parser plain_run (loaded [])) <= 1 /\
  indicators (step sample_parser SubmitForm
                (run sample_parser (firstn 1 plain_run) (loaded []))) = 1 /\
  indicators (step sample_parser (Settles 0 hello_response)
                (run sample_parser (firstn 2 plain_run) (loaded []))) = 0.
Proof.
  split; [|split].
  - apply (typing_indicator_singleton sample_parser [] plain_run).
    + reflexivity.
    + vm_compute. reflexivity.
    + vm_compute. reflexivity.
  - apply (proj1 (proj2 (proj2
             (typing_indicator_singleton sample_parser [] (firstn 1 plain_run)
                eq_refl eq_refl eq_refl)))).
    + vm_compute. discriminate.
    + vm_compute. reflexivity.
  - apply (proj2 (proj2 (proj2
             (typing_indicator_singleton sample_parser [] (firstn 2 plain_run)
                eq_refl eq_refl eq_refl))) 0 hello_response).
    + reflexivity.
    + vm_compute. reflexivity.
Defined.

(** C5. The typing indicator is meant to be a singleton, removed once per
    query on every outcome; the script misses that when a message carries
    the indicator's id. The user sends [<i id="typing-indicator"></i>]:
    when the reply arrives the element inside that message is the one
    removed, the indicator stays with no query waiting, and the next query
    puts a second one in the log. *)
Lemma decoy_keeps_indicator :
  let s := run sample_parser (firstn 3 decoy_run) (loaded []) in
  pending s = [] /\
  indicators s = 1 /\
  indicators (run sample_parser decoy_run (loaded [])) = 2.
Proof. vm_compute. repeat split; reflexivity. Qed.

(** ** The order of the visible steps *)



Section Replay.

Variable parseHTML : jsstring -> list node.




Lemma refreshed_replay t (p : page) :
  refreshed t (toast_calls t ++ refresh_cleanup_calls) p =
  replay (toast_calls t ++ refresh_cleanup_calls) p.
Proof. reflexivity. Qed.

End Replay.



(** ** A message that carries the indicator's id *)

(** C2. The reply text is shown as the claim has it, but the typing
    indicator is not removed first when the user's message carries its id.
    On the page that waits for the reply to [<i id="typing-indicator"></i>],
    a reply ["Hello"] and a reply without a [response] both leave the
    indicator in the log, before the ai Message: the one node removed is
    the element inside the user's message. *)
Lemma reply_after_decoy_keeps_indicator :
  let emptied :=
    Elem (js "div") [] [js "message"; js "user"] [Elem (js "div") [] [js "content"] []] in
  let p := waiting decoy_markup in
  trim decoy_markup = decoy_markup /\
  chatMessages p =
    [message_node sample_parser decoy_markup (js "user"); indicator_node sample_parser] /\
  chatMessages (snd (submit_settle sample_parser hello_response p)) =
    [emptied; indicator_node sample_parser;
     message_node sample_parser (js "Hello") (js "ai")] /\
  count_calls is_node_remove
    (calls_since p (snd (submit_settle sample_parser hello_response p))) = 1 /\
  chatMessages (snd (submit_settle sample_parser empty_object_response p)) =
    [emptied; indicator_node sample_parser;
     message_node sample_parser soft_failure_text (js "ai")] /\
  count_calls is_node_remove
    (calls_since p (snd (submit_settle sample_parser empty_object_response p))) = 1.
Proof. vm_compute. repeat split; reflexivity. Qed.

(** C3. The failure text is shown and the error reported as the claim has
    it, but the typing indicator is not removed when the user's message
    carries its id. On the page that waits for the reply to
    [<i id="typing-indicator"></i>], a rejected [fetch] and an unreadable
    body both leave the indicator in the log: the one node removed is the
    element inside the user's message. *)
Lemma failure_after_decoy_keeps_indicator :
  let emptied :=
    Elem (js "div") [] [js "message"; js "user"] [Elem (js "div") [] [js "content"] []] in
  let p := waiting decoy_markup in
  chatMessages p =
    [message_node sample_parser decoy_markup (js "user"); indicator_node sample_parser] /\
  chatMessages (snd (submit_settle sample_parser network_down p)) =
    [emptied; indicator_node sample_parser;
     message_node sample_parser transport_failure_text (js "ai")] /\
  count_calls is_node_remove
    (calls_since p (snd (submit_settle sample_parser network_down p))) = 1 /\
  chatMessages (snd (submit_settle sample_parser not_json p)) =
    [emptied; indicator_node sample_parser;
     message_node sample_parser transport_failure_text (js "ai")] /\
  filter is_console_error
    (calls_since p (snd (submit_settle sample_parser not_json p))) =
    [ConsoleError SyntaxError].
Proof. vm_compute. repeat split; reflexivity. Qed.

(** ** Runs of events *)

Lemma run_app (parseHTML : jsstring -> list node) es es' s :
  run parseHTML (es ++ es') s = run parseHTML es' (run parseHTML es s).
Proof. unfold run. apply fold_left_app. Qed.

Lemma removal_calls_bookkeeping (f : list node) :
  forallb is_bookkeeping (removal_calls f) = true.
Proof. unfold removal_calls. destruct (remove_by_id typing_id f); reflexivity. Qed.

Lemma refresh_begin_started (p : page) : snd (refresh_begin p) = refresh_started p.
Proof. run_js. unfold refresh_started. repeat rewrite <- app_assoc. reflexivity. Qed.

(** Each event moves the page in one of the ways of [moves]. *)
Lemma step_moves (parseHTML : jsstring -> list node) e s :
  moves parseHTML s (renders e s) (step parseHTML e s).
Proof.
  destruct s as [p l].
  destruct e as [v | | | i r | d]; unfold step, renders; cbn [pg pending].
  - destruct (userInput_disabled p) eqn:Ed; [apply move_none|].
    now apply (move_typed parseHTML {| pg := p; pending := l |}).
  - destruct (jseqb (trim (userInput_value p)) []) eqn:Eq.
    + apply jseqb_eq in Eq. rewrite (submit_begin_ignores parseHTML p Eq).
      now apply (move_blank parseHTML {| pg := p; pending := l |}).
    + apply jseqb_nil in Eq. rewrite (submit_begin_sends parseHTML p Eq).
      now apply (move_sent parseHTML {| pg := p; pending := l |}).
  - destruct (refreshBtn_disabled p) eqn:Ed; [apply move_none|].
    rewrite refresh_begin_started.
    now apply (move_refresh parseHTML {| pg := p; pending := l |}).
  - destruct (nth_error l i) as [[|]|] eqn:En; [| |apply move_none].
    + destruct (submit_settle_cases parseHTML r p)
        as [[data [t [Hr [Ht H]]]] | [[e [Hr H]] | [data [e [Hr [Ht H]]]]]];
        rewrite H; cbn [snd]; unfold replied, failed.
      * replace t with (shown_text r) by (unfold shown_text; now rewrite Hr, Ht).
        apply (@move_replied parseHTML {| pg := p; pending := l |} i r
                 (without_indicator (chatMessages p))
                 (removal_calls (chatMessages p)) []);
          auto using removal_calls_bookkeeping.
      * replace transport_failure_text with (shown_text r)
          by (unfold shown_text; now rewrite Hr).
        apply (@move_replied parseHTML {| pg := p; pending := l |} i r
                 (without_indicator (chatMessages p))
                 (removal_calls (chatMessages p)) [ConsoleError e]);
          auto using removal_calls_bookkeeping.
      * replace transport_failure_text with (shown_text r)
          by (unfold shown_text; now rewrite Hr, Ht).
        rewrite (app_assoc (removal_calls (chatMessages p))).
        apply (@move_replied parseHTML {| pg := p; pending := l |} i r
                 (without_indicator (without_indicator (chatMessages p)))
                 (removal_calls (chatMessages p) ++
                  removal_calls (without_indicator (chatMessages p)))
                 [ConsoleError e]); auto.
        rewrite forallb_app, !removal_calls_bookkeeping. reflexivity.
    + destruct (refresh_settle_cases r p) as [t [H _]]. rewrite H. cbn [snd].
      now apply (move_refreshed parseHTML {| pg := p; pending := l |} i t).
  - apply (move_elapsed parseHTML {| pg := p; pending := l |}).
Qed.

(** What every event keeps, as long as the texts it renders are fine, every
    run keeps as long as the texts it renders are fine. *)
Lemma run_keeps_when (parseHTML : jsstring -> list node)
    (fine : jsstring -> bool) (I : system -> Prop) :
  (forall s ts s', moves parseHTML s ts s' -> forallb fine ts = true -> I s -> I s') ->
  forall es s,
    forallb fine (rendered parseHTML es s) = true -> I s -> I (run parseHTML es s).
Proof.
  intros Hstep es. induction es as [|e es IH]; intros s Hf Hs; [exact Hs|].
  cbn [rendered] in Hf. rewrite forallb_app in Hf.
  apply andb_true_iff in Hf as [He Hes].
  unfold run. cbn [fold_left]. apply IH; [exact Hes|].
  eapply Hstep; [apply step_moves|exact He|exact Hs].
Qed.

(** What every event keeps, every run keeps. *)
Lemma run_keeps (parseHTML : jsstring -> list node) (I : system -> Prop) :
  (forall s ts s', moves parseHTML s ts s' -> I s -> I s') ->
  forall es s, I s -> I (run parseHTML es s).
Proof.
  intros Hstep es. induction es as [|e es IH]; intros s Hs; [exact Hs|].
  unfold run. cbn [fold_left]. apply IH. eapply Hstep; [apply step_moves|exact Hs].
Qed.

Lemma refresh_pending_app l h :
  refresh_pending (l ++ [h]) = refresh_pending l + (if is_chat h then 0 else 1).
Proof.
  unfold refresh_pending. rewrite filter_app, length_app. simpl.
  destruct (is_chat h); reflexivity.
Qed.

Lemma refresh_pending_drop l i h :
  nth_error l i = Some h ->
  refresh_pending (drop_nth i l) + (if is_chat h then 0 else 1) = refresh_pending l.
Proof.
  unfold refresh_pending. revert i. induction l as [|x l IH]; intros [|i]; simpl;
    try discriminate.
  - intros H. injection H as ->. destruct (is_chat h); simpl; lia.
  - intros H. apply IH in H. destruct (is_chat x); simpl; lia.
Qed.

Lemma moves_query_gate (parseHTML : jsstring -> list node) s ts s' :
  moves parseHTML s ts s' -> query_gate s -> query_gate s'.
Proof.
  intros Hm. unfold query_gate.
  destruct Hm as [s | s v Hd | s Hq | s Hq | s Hd | s i r f pre post Hn Hf Hpre Hpost Hc
                  | s i t Hn | s d]; cbn [pg pending].
  - auto.
  - cbn [with_userInput_value chatMessages userInput_disabled userInput_value].
    intros [[H0 H1] | [H0 [H1 _]]]; [now left | congruence].
  - auto.
  - rewrite chat_pending_app. cbn [is_chat sent userInput_disabled userInput_value].
    intros [[H0 H1] | [H0 [H1 H2]]].
    + right. split; [lia|]. split; reflexivity.
    + rewrite H2 in Hq. exfalso. apply Hq. reflexivity.
  - rewrite chat_pending_app. cbn [is_chat refresh_started userInput_disabled userInput_value].
    rewrite Nat.add_0_r. auto.
  - apply chat_pending_drop in Hn. cbn [is_chat] in Hn.
    cbn [settled userInput_disabled userInput_value].
    intros [[H0 H1] | [H0 [H1 H2]]]; [lia|]. left. split; [lia|reflexivity].
  - apply chat_pending_drop in Hn. cbn [is_chat] in Hn. rewrite Nat.add_0_r in Hn.
    rewrite Hn. cbn [refreshed userInput_disabled userInput_value]. auto.
  - destruct (elapse_frame d (pg s)) as (_ & H2 & H3 & _). rewrite H2, H3. auto.
Qed.

(** X1. At every point of every run, starting from the loaded page, at most
    one query waits for its reply; the input field is disabled exactly while
    one does, and it is then empty. *)
Theorem one_query_in_flight (parseHTML : jsstring -> list node)
    (welcome : list node) (es : list event) :
  let s := run parseHTML es (loaded welcome) in
  chat_pending (pending s) <= 1 /\
  (userInput_disabled (pg s) = true <-> chat_pending (pending s) = 1) /\
  (userInput_disabled (pg s) = true -> userInput_value (pg s) = []).
Proof.
  intros s.
  assert (H : query_gate s).
  { apply run_keeps with (I := query_gate).
    - intros s1 ts s2. apply moves_query_gate.
    - left. split; reflexivity. }
  destruct H as [[H0 H1] | [H0 [H1 H2]]]; rewrite ?H0, ?H1.
  - split; [lia|]. split; [split; [discriminate|lia]|discriminate].
  - split; [lia|]. split; [split; auto|auto].
Qed.

Lemma one_query_in_flight_witness :
  userInput_disabled (pg (run sample_parser (firstn 2 plain_run) (loaded []))) = true /\
  userInput_value (pg (run sample_parser (firstn 2 plain_run) (loaded []))) = [] /\
  chat_pending (pending (run sample_parser (firstn 2 plain_run) (loaded []))) = 1.
Proof.
  destruct (one_query_in_flight sample_parser [] (firstn 2 plain_run)) as [_ [H1 H2]].
  assert (Hd : userInput_disabled
                 (pg (run sample_parser (firstn 2 plain_run) (loaded []))) = true)
    by (vm_compute; reflexivity).
  split; [exact Hd|]. split; [exact (H2 Hd)|exact (proj1 H1 Hd)].
Defined.

Lemma moves_refresh_gate (parseHTML : jsstring -> list node) s ts s' :
  moves parseHTML s ts s' -> refresh_gate s -> refresh_gate s'.
Proof.
  intros Hm. unfold refresh_gate, spinning.
  destruct Hm as [s | s v Hd | s Hq | s Hq | s Hd | s i r f pre post Hn Hf Hpre Hpost Hc
                  | s i t Hn | s d]; cbn [pg pending].
  - auto.
  - auto.
  - auto.
  - rewrite refresh_pending_app. cbn [is_chat sent refreshBtn_disabled refreshBtn_classes].
    rewrite Nat.add_0_r. auto.
  - rewrite refresh_pending_app.
    cbn [is_chat refresh_started refreshBtn_disabled refreshBtn_classes].
    intros [[H0 [H1 H2]] | [H0 [H1 H2]]]; [|congruence].
    right. split; [lia|]. split; [reflexivity|apply has_class_add].
  - apply refresh_pending_drop in Hn. cbn [is_chat] in Hn. rewrite Nat.add_0_r in Hn.
    rewrite Hn. cbn [settled refreshBtn_disabled refreshBtn_classes]. auto.
  - apply refresh_pending_drop in Hn. cbn [is_chat] in Hn.
    cbn [refreshed refreshBtn_disabled refreshBtn_classes].
    intros [[H0 _] | [H0 _]]; [lia|].
    left. split; [lia|]. split; [reflexivity|apply has_class_remove].
  - destruct (elapse_frame d (pg s)) as (_ & _ & _ & _ & H5 & H6 & _).
    rewrite H5, H6. auto.
Qed.

(** X2. At every point of every run, starting from the loaded page, at most
    one refresh waits for its reply; the refresh button is disabled exactly
    while one does, and it spins exactly while it is disabled. *)
Theorem one_refresh_in_flight (parseHTML : jsstring -> list node)
    (welcome : list node) (es : list event) :
  let s := run parseHTML es (loaded welcome) in
  refresh_pending (pending s) <= 1 /\
  (refreshBtn_disabled (pg s) = true <-> refresh_pending (pending s) = 1) /\
  spinning (pg s) = refreshBtn_disabled (pg s).
Proof.
  intros s.
  assert (H : refresh_gate s).
  { apply run_keeps with (I := refresh_gate).
    - intros s1 ts s2. apply moves_refresh_gate.
    - left. split; [|split]; reflexivity. }
  destruct H as [[H0 [H1 H2]] | [H0 [H1 H2]]]; rewrite H0, H1, H2.
  - split; [lia|]. split; [split; [discriminate|lia]|reflexivity].
  - split; [lia|]. split; [split; auto|reflexivity].
Qed.

Lemma one_refresh_in_flight_witness :
  refreshBtn_disabled (pg (run sample_parser (firstn 6 plain_run) (loaded []))) = true /\
  refresh_pending (pending (run sample_parser (firstn 6 plain_run) (loaded []))) = 1.
Proof.
  destruct (one_refresh_in_flight sample_parser [] (firstn 6 plain_run)) as [_ [H1 _]].
  assert (Hd : refreshBtn_disabled
                 (pg (run sample_parser (firstn 6 plain_run) (loaded []))) = true)
    by (vm_compute; reflexivity).
  split; [exact Hd|exact (proj1 H1 Hd)].
Defined.

(** ** The conversation *)

Lemma authors_app (a b : list call) : authors (a ++ b) = authors a ++ authors b.
Proof.
  induction a as [|c a IH]; simpl; auto.
  destruct (author_of c); simpl; now rewrite IH.
Qed.

Lemma exchanges_snoc k : exchanges k ++ [User; Ai] = exchanges (S k).
Proof. induction k as [|k IH]; simpl in *; [reflexivity|now rewrite IH]. Qed.

Lemma bookkeeping_authors (l : list call) :
  forallb is_bookkeeping l = true -> authors l = [].
Proof.
  induction l as [|c l IH]; simpl; auto.
  intros H. apply andb_true_iff in H as [Hc Hl].
  destruct c; try discriminate; simpl; auto.
Qed.

Lemma bookkeeping_no_chat_fetch (l : list call) :
  forallb is_bookkeeping l = true -> count_calls is_chat_fetch l = 0.
Proof.
  unfold count_calls. induction l as [|c l IH]; simpl; auto.
  intros H. apply andb_true_iff in H as [Hc Hl].
  destruct c; try discriminate; simpl; auto.
Qed.

Lemma hideToast_fold_calls {A} (l : list A) (q : page) :
  calls (fold_left (fun q _ => snd (hideToast q)) l q) =
  calls q ++ repeat (ToastClass false (js "show")) (List.length l).
Proof.
  revert q. induction l as [|a l IH]; intros q; cbn [fold_left List.length repeat].
  - now rewrite app_nil_r.
  - rewrite IH. run_js. now rewrite <- app_assoc.
Qed.

(** Time passing only adds calls of the timeout callback. *)
Lemma elapse_calls d (p : page) :
  exists n, calls (elapse d p) = calls p ++ repeat (ToastClass false (js "show")) n.
Proof.
  unfold elapse. cbv zeta. rewrite hideToast_fold_calls. eexists. reflexivity.
Qed.

Lemma authors_repeat_hide n : authors (repeat (ToastClass false (js "show")) n) = [].
Proof. induction n; simpl; auto. Qed.

Lemma chat_fetch_repeat_hide n :
  count_calls is_chat_fetch (repeat (ToastClass false (js "show")) n) = 0.
Proof. unfold count_calls. induction n; simpl; auto. Qed.

Lemma moves_in_turns (parseHTML : jsstring -> list node) s ts s' :
  moves parseHTML s ts s' -> query_gate s -> in_turns s -> in_turns s'.
Proof.
  intros Hm. unfold in_turns, query_gate.
  destruct Hm as [s | s v Hd | s Hq | s Hq | s Hd | s i r f pre post Hn Hf Hpre Hpost Hc
                  | s i t Hn | s d]; cbn [pg pending]; intros Hg [k [Ha Hc']].
  - exists k. auto.
  - exists k. auto.
  - exists k. cbn [with_calls calls].
    rewrite authors_app, count_calls_app, Ha, Hc'. cbn. rewrite app_nil_r. split; lia || auto.
  - assert (H0 : chat_pending (pending s) = 0).
    { destruct Hg as [[H0 _] | [_ [_ H2]]]; auto.
      rewrite H2 in Hq. exfalso. apply Hq. reflexivity. }
    exists k. rewrite chat_pending_app. cbn [is_chat sent calls].
    rewrite authors_app, count_calls_app, Ha, Hc', H0. cbn [Nat.eqb Nat.add].
    rewrite app_nil_r. split; [reflexivity|].
    replace (count_calls is_chat_fetch
               (submit_calls parseHTML (trim (userInput_value (pg s))))) with 1
      by reflexivity.
    lia.
  - exists k. rewrite chat_pending_app. cbn [is_chat refresh_started calls].
    rewrite Nat.add_0_r, authors_app, count_calls_app, Ha, Hc'. cbn.
    rewrite app_nil_r. split; lia || auto.
  - apply chat_pending_drop in Hn. cbn [is_chat] in Hn.
    assert (H1 : chat_pending (pending s) = 1)
      by (destruct Hg as [[H0 _] | [H1 _]]; lia).
    assert (H0 : chat_pending (drop_nth i (pending s)) = 0) by lia.
    exists (S k). cbn [settled calls]. rewrite H0. rewrite H1 in Ha, Hc'.
    cbn [Nat.eqb] in *.
    rewrite !authors_app, !count_calls_app, Ha, Hc'.
    rewrite (bookkeeping_authors pre Hpre), (bookkeeping_authors post Hpost).
    rewrite (bookkeeping_no_chat_fetch pre Hpre), (bookkeeping_no_chat_fetch post Hpost).
    cbn [app]. split.
    + replace (authors (reply_calls parseHTML (shown_text r))) with [Ai] by reflexivity.
      replace (authors cleanup_calls) with (@nil author) by reflexivity.
      rewrite !app_nil_r, <- app_assoc. cbn [app]. apply exchanges_snoc.
    + replace (count_calls is_chat_fetch (reply_calls parseHTML (shown_text r))) with 0
        by reflexivity.
      replace (count_calls is_chat_fetch cleanup_calls) with 0 by reflexivity.
      lia.
  - apply chat_pending_drop in Hn. cbn [is_chat] in Hn. rewrite Nat.add_0_r in Hn.
    exists k. rewrite Hn. cbn [refreshed calls].
    rewrite authors_app, count_calls_app, Ha, Hc'. cbn. rewrite app_nil_r.
    split; lia || auto.
  - exists k. destruct (elapse_calls d (pg s)) as [n Hn]. rewrite Hn.
    rewrite authors_app, count_calls_app, authors_repeat_hide, chat_fetch_repeat_hide, Ha, Hc'.
    rewrite app_nil_r. split; lia || auto.
Qed.

(** X3. At every point of every run the Messages were appended in turns:
    user, ai, user, ai, and so on, ending with a user Message exactly when a
    query waits for its reply; and as many queries were sent to the chat
    endpoint as user Messages were appended. *)
Theorem messages_in_turns (parseHTML : jsstring -> list node)
    (welcome : list node) (es : list event) :
  let s := run parseHTML es (loaded welcome) in
  exists k,
    authors (calls (pg s)) =
      exchanges k ++ (if chat_pending (pending s) =? 0 then [] else [User]) /\
    count_calls is_chat_fetch (calls (pg s)) = k + chat_pending (pending s).
Proof.
  intros s.
  assert (H : query_gate s /\ in_turns s).
  { apply run_keeps with (I := fun s => query_gate s /\ in_turns s).
    - intros s1 ts s2 Hm [Hg Ht]. split.
      + now apply (moves_query_gate Hm).
      + now apply (moves_in_turns Hm).
    - split.
      + left. split; reflexivity.
      + exists 0. split; reflexivity. }
  exact (proj2 H).
Qed.

(** ** The log *)

Lemma remove_inside_none i n : count_id i n = 0 -> remove_inside i n = None.
Proof.
  destruct n as [d|t j c ks]; [reflexivity|]. cbn [remove_inside count_id].
  fold (count_ids i ks) (remove_by_id i ks). intros H.
  destruct (remove_by_id i ks) as [ks'|] eqn:E; [|reflexivity].
  apply remove_by_id_count in E. lia.
Qed.

(** In a log of clean nodes the element detached is a typing indicator of
    the log itself: the Messages are left as they are. *)
Lemma remove_by_id_clean (f f' : list node) :
  forallb clean_node f = true ->
  remove_by_id typing_id f = Some f' ->
  messages_of f' = messages_of f /\ forallb clean_node f' = true.
Proof.
  revert f'. induction f as [|n r IH]; intros f' Hc; [discriminate|].
  cbn [forallb] in Hc. apply andb_true_iff in Hc as [Hn Hr].
  unfold remove_by_id. cbn [remove_first]. fold (remove_by_id typing_id r).
  unfold messages_of. cbn [filter]. fold (messages_of r).
  destruct (has_id typing_id n) eqn:Hid.
  - intros H. injection H as <-. auto.
  - unfold clean_node in Hn. rewrite Hid in Hn. cbn [orb] in Hn.
    apply Nat.eqb_eq in Hn as Hn0. rewrite (remove_inside_none _ _ Hn0).
    destruct (remove_by_id typing_id r) as [r'|] eqn:E; [|discriminate].
    cbn [option_map]. intros H. injection H as <-.
    destruct (IH r' Hr eq_refl) as [Hm Hc'].
    unfold messages_of in *. cbn [filter forallb negb]. rewrite Hid. cbn [negb].
    rewrite Hm. split; [reflexivity|].
    unfold clean_node at 1. rewrite Hid, Hn. exact Hc'.
Qed.

Lemma without_indicator_clean (f : list node) :
  forallb clean_node f = true ->
  messages_of (without_indicator f) = messages_of f /\
  forallb clean_node (without_indicator f) = true.
Proof.
  intros Hc. unfold without_indicator.
  destruct (remove_by_id typing_id f) as [f'|] eqn:E; [|auto].
  now apply remove_by_id_clean.
Qed.

Lemma messages_of_app (f g : list node) :
  messages_of (f ++ g) = messages_of f ++ messages_of g.
Proof. unfold messages_of. apply filter_app. Qed.

Lemma appended_app (a b : list call) : appended (a ++ b) = appended a ++ appended b.
Proof.
  induction a as [|c a IH]; simpl; auto.
  destruct c; auto. destruct (has_id typing_id n); simpl; now rewrite IH.
Qed.

Lemma bookkeeping_appended (l : list call) :
  forallb is_bookkeeping l = true -> appended l = [].
Proof.
  induction l as [|c l IH]; simpl; auto.
  intros H. apply andb_true_iff in H as [Hc Hl].
  destruct c; try discriminate; simpl; auto.
Qed.

Lemma appended_repeat_hide n : appended (repeat (ToastClass false (js "show")) n) = [].
Proof. induction n; simpl; auto. Qed.

Lemma clean_message_node (parseHTML : jsstring -> list node) t sender :
  clean_node (message_node parseHTML t sender) = inert parseHTML t.
Proof. reflexivity. Qed.

Lemma moves_append_only (parseHTML : jsstring -> list node) welcome s ts s' :
  moves parseHTML s ts s' ->
  forallb (inert parseHTML) ts = true ->
  append_only welcome s -> append_only welcome s'.
Proof.
  intros Hm. unfold append_only.
  destruct Hm as [s | s v Hd | s Hq | s Hq | s Hd | s i r f pre post Hn Hf Hpre Hpost Hc
                  | s i t Hn | s d]; cbn [pg pending]; intros Hin [Hcl Hlog].
  - auto.
  - auto.
  - cbn [with_calls chatMessages calls]. rewrite appended_app. cbn [appended].
    rewrite app_nil_r. auto.
  - cbn [forallb] in Hin. rewrite andb_true_r in Hin.
    cbn [sent chatMessages calls].
    rewrite forallb_app, messages_of_app, appended_app, Hcl, Hlog.
    cbn [forallb andb]. rewrite clean_message_node, Hin. split; [reflexivity|].
    rewrite <- app_assoc. reflexivity.
  - cbn [refresh_started chatMessages calls]. rewrite appended_app. cbn [appended].
    rewrite app_nil_r. auto.
  - cbn [forallb] in Hin. rewrite andb_true_r in Hin.
    assert (Hf' : messages_of f = messages_of (chatMessages (pg s)) /\
                  forallb clean_node f = true).
    { destruct (without_indicator_clean _ Hcl) as [H1 H2].
      destruct Hf as [-> | ->]; [auto|].
      destruct (without_indicator_clean _ H2) as [H3 H4].
      split; [congruence|exact H4]. }
    destruct Hf' as [Hm' Hc'].
    cbn [settled chatMessages calls].
    rewrite forallb_app, messages_of_app, !appended_app, Hc', Hm', Hlog.
    rewrite (bookkeeping_appended pre Hpre), (bookkeeping_appended post Hpost).
    cbn [forallb andb]. rewrite clean_message_node, Hin. split; [reflexivity|].
    cbn [app]. rewrite <- app_assoc. reflexivity.
  - cbn [refreshed chatMessages calls]. rewrite appended_app.
    cbn [toast_calls refresh_cleanup_calls app appended]. rewrite app_nil_r. auto.
  - destruct (elapse_frame d (pg s)) as (H1 & _).
    destruct (elapse_calls d (pg s)) as [n Hn]. rewrite H1, Hn.
    rewrite appended_app, appended_repeat_hide, app_nil_r. auto.
Qed.

(** X4. The log is append-only for Messages. Take a page whose template
    holds no element with the typing indicator's id, and a run in which no
    rendered text makes the parser create one: at every point of the run the
    children of the log, typing indicators apart, are the nodes of the
    template followed by every node [addMessage] appended, in the order of
    the appends and unchanged. *)
Theorem log_is_append_only (parseHTML : jsstring -> list node)
    (welcome : list node) (es : list event) :
  count_ids typing_id welcome = 0 ->
  forallb (inert parseHTML) (rendered parseHTML es (loaded welcome)) = true ->
  let s := run parseHTML es (loaded welcome) in
  messages_of (chatMessages (pg s)) = welcome ++ appended (calls (pg s)).
Proof.
  intros Hw Hin s.
  assert (Hc : forallb clean_node welcome = true /\ messages_of welcome = welcome).
  { clear Hin s. induction welcome as [|n w IH]; [auto|].
    rewrite count_ids_cons in Hw.
    assert (Hn : count_id typing_id n = 0) by lia.
    assert (Hid : has_id typing_id n = false).
    { destruct (has_id typing_id n) eqn:E; auto. apply has_id_count in E. lia. }
    destruct IH as [IH1 IH2]; [lia|].
    unfold messages_of in *. cbn [forallb filter]. unfold clean_node at 1.
    rewrite Hid, Hn, IH1, IH2. auto. }
  assert (H : append_only welcome s).
  { apply run_keeps_when with (fine := inert parseHTML) (I := append_only welcome).
    - intros s1 ts s2. apply moves_append_only.
    - exact Hin.
    - unfold append_only, loaded. cbn [pg chatMessages calls appended].
      rewrite app_nil_r. exact Hc. }
  exact (proj2 H).
Qed.

Lemma log_is_append_only_witness :
  chatMessages (pg (run sample_parser two_exchanges (loaded []))) =
    [ message_node sample_parser (js "hi") (js "user");
      message_node sample_parser (js "Hello") (js "ai");
      message_node sample_parser (js "again") (js "user");
      message_node sample_parser transport_failure_text (js "ai") ].
Proof.
  transitivity (messages_of (chatMessages (pg (run sample_parser two_exchanges (loaded []))))).
  - vm_compute. reflexivity.
  - rewrite (log_is_append_only sample_parser [] two_exchanges).
    + vm_compute. reflexivity.
    + reflexivity.
    + vm_compute. reflexivity.
Defined.

(** ** The two actions side by side *)

(** X5. The two actions do not touch each other's part of the page: the
    submit handler, before and after its request, leaves the refresh button,
    the toast and the timeouts as they were; the refresh handler, before and
    after its request, leaves the log and the input field as they were. *)
Theorem handlers_do_not_interfere (parseHTML : jsstring -> list node)
    (r : completion http_response) (p : page) :
  refresh_side_kept p (snd (submit_begin parseHTML p)) /\
  refresh_side_kept p (snd (submit_settle parseHTML r p)) /\
  chat_side_kept p (snd (refresh_begin p)) /\
  chat_side_kept p (snd (refresh_settle r p)).
Proof.
  unfold refresh_side_kept, chat_side_kept. split; [|split; [|split]].
  - destruct (jseqb (trim (userInput_value p)) []) eqn:Eq.
    + apply jseqb_eq in Eq. rewrite (submit_begin_ignores parseHTML p Eq).
      cbn. auto 10.
    + apply jseqb_nil in Eq. rewrite (submit_begin_sends parseHTML p Eq).
      cbn. auto 10.
  - destruct (submit_settle_page parseHTML r p) as [f [new [H _]]].
    rewrite H. cbn. auto 10.
  - rewrite refresh_begin_started. cbn. auto.
  - destruct (refresh_settle_cases r p) as [t [H _]]. rewrite H. cbn. auto.
Qed.




(** ** The toast over a run *)

Lemma elapse_clock_timers d (p : page) :
  clock (elapse d p) = clock p + d /\
  timers (elapse d p) = filter (fun x => negb (x <=? clock p + d)) (timers p).
Proof.
  unfold elapse. cbv zeta.
  pose proof (hideToast_fold (filter (fun x => x <=? clock p + d) (timers p))
                (with_timers (filter (fun x => negb (x <=? clock p + d)) (timers p))
                             (with_clock (clock p + d) p))) as H.
  cbv zeta in H. destruct H as (_ & _ & _ & _ & _ & _ & _ & H8 & H9 & _).
  rewrite H8, H9. split; reflexivity.
Qed.

Lemma moves_due_soon (parseHTML : jsstring -> list node) s ts s' :
  moves parseHTML s ts s' -> due_soon (pg s) -> due_soon (pg s').
Proof.
  intros Hm. unfold due_soon, toast_visible.
  destruct Hm as [s | s v Hd | s Hq | s Hq | s Hd | s i r f pre post Hn Hf Hpre Hpost Hc
                  | s i t Hn | s d]; cbn [pg pending]; try (cbn; now auto).
  - intros [Hv Hd]. cbn [refreshed toast_classes timers clock]. split.
    + intros _. now destruct (timers (pg s)).
    + apply Forall_app. split; [exact Hd|].
      constructor; [|constructor]. unfold toast_ms. lia.
  - intros [Hv Hd]. fold (toast_visible (elapse d (pg s))) (toast_visible (pg s)) in *.
    destruct (elapse_clock_timers d (pg s)) as [Hc Ht]. rewrite Hc, Ht, elapse_visible.
    split.
    + intros H. apply andb_true_iff in H as [H1 H2]. specialize (Hv H1).
      destruct (timers (pg s)) as [|x l]; [congruence|].
      cbn [forallb] in H2. apply andb_true_iff in H2 as [Hx _].
      cbn [filter]. rewrite (Nat.ltb_antisym x (clock (pg s) + d)) in Hx.
      rewrite Hx. discriminate.
    + apply Forall_forall. intros x Hx. apply filter_In in Hx as [Hx Hlt].
      rewrite Forall_forall in Hd. specialize (Hd x Hx).
      apply negb_true_iff, Nat.leb_gt in Hlt. lia.
Qed.

(** X7. No toast stays for ever. At every point of every run, starting
    from the loaded page, a toast that shows has a dismissal pending, and
    once [toast_ms] milliseconds or more pass without another toast it is
    hidden and no timeout is left. *)
Theorem toast_always_dismissed (parseHTML : jsstring -> list node)
    (welcome : list node) (es : list event) (d : nat) :
  let s := run parseHTML es (loaded welcome) in
  (toast_visible (pg s) = true -> timers (pg s) <> []) /\
  toast_visible (elapse (toast_ms + d) (pg s)) = false /\
  timers (elapse (toast_ms + d) (pg s)) = [].
Proof.
  intros s.
  assert (H : due_soon (pg s)).
  { apply run_keeps with (I := fun s => due_soon (pg s)).
    - intros s1 ts s2. apply moves_due_soon.
    - split; [discriminate|constructor]. }
  destruct H as [Hv Hd]. split; [exact Hv|].
  assert (Hall : filter (fun x => negb (x <=? clock (pg s) + (toast_ms + d)))
                        (timers (pg s)) = []).
  { clear Hv. induction Hd as [|x l Hx Hl IH]; [reflexivity|].
    cbn [filter]. destruct (Nat.leb_spec x (clock (pg s) + (toast_ms + d))); [|lia].
    cbn [negb]. exact IH. }
  split.
  - rewrite elapse_visible. destruct (toast_visible (pg s)) eqn:E; [|reflexivity].
    specialize (Hv eq_refl). destruct Hd as [|x l Hx Hl]; [congruence|].
    cbn [forallb andb]. destruct (Nat.ltb_spec (clock (pg s) + (toast_ms + d)) x); [lia|].
    reflexivity.
  - destruct (elapse_clock_timers (toast_ms + d) (pg s)) as [_ Ht]. now rewrite Ht.
Qed.

Lemma toast_always_dismissed_witness :
  timers (pg (run sample_parser two_toasts (loaded []))) <> [] /\
  toast_visible (elapse 3000 (pg (run sample_parser two_toasts (loaded [])))) = false.
Proof.
  destruct (toast_always_dismissed sample_parser [] two_toasts 0) as [H1 [H2 _]].
  split; [|exact H2]. apply H1. vm_compute. reflexivity.
Defined.

(** ** The requests *)

Lemma trimStart_head_ok (s : jsstring) : head_ok (trimStart s) = true.
Proof.
  induction s as [|c s IH]; [reflexivity|]. cbn [trimStart].
  destruct (is_space c) eqn:E; [exact IH|]. cbn [head_ok]. now rewrite E.
Qed.

Lemma trimStart_suffix (s : jsstring) : exists sp, s = sp ++ trimStart s.
Proof.
  induction s as [|c s [sp IH]]; [now exists []|]. cbn [trimStart].
  destruct (is_space c).
  - exists (c :: sp). cbn [app]. now rewrite <- IH.
  - now exists [].
Qed.

(** What [trim] returns neither starts nor ends with white space. *)
Lemma trim_trimmed (s : jsstring) : trimmed (trim s) = true.
Proof.
  unfold trimmed, trim, trimEnd. rewrite rev_involutive, trimStart_head_ok, andb_true_r.
  pose proof (trimStart_head_ok s) as Ha.
  destruct (trimStart_suffix (rev (trimStart s))) as [sp Hsp].
  apply (f_equal (@rev N)) in Hsp. rewrite rev_involutive, rev_app_distr in Hsp.
  destruct (rev (trimStart (rev (trimStart s)))) as [|c q]; [reflexivity|].
  rewrite Hsp in Ha. exact Ha.
Qed.

Lemma bookkeeping_expected (l : list call) :
  forallb is_bookkeeping l = true -> Forall expected_call l.
Proof.
  induction l as [|c l IH]; [constructor|]. cbn [forallb].
  intros H. apply andb_true_iff in H as [Hc Hl].
  constructor; [|auto]. destruct c; try discriminate; exact I.
Qed.

Lemma moves_expected_calls (parseHTML : jsstring -> list node) s ts s' :
  moves parseHTML s ts s' ->
  Forall expected_call (calls (pg s)) -> Forall expected_call (calls (pg s')).
Proof.
  intros Hm.
  destruct Hm as [s | s v Hd | s Hq | s Hq | s Hd | s i r f pre post Hn Hf Hpre Hpost Hc
                  | s i t Hn | s d]; cbn [pg pending]; intros H.
  - exact H.
  - exact H.
  - cbn [with_calls calls]. apply Forall_app. split; [exact H|].
    repeat constructor.
  - cbn [sent calls]. apply Forall_app. split; [exact H|].
    unfold submit_calls. repeat (constructor; [exact I|]).
    constructor; [|constructor]. right.
    exists (trim (userInput_value (pg s))).
    split; [reflexivity|]. split; [exact Hq|apply trim_trimmed].
  - cbn [refresh_started calls]. apply Forall_app. split; [exact H|].
    repeat (constructor; [exact I|]). constructor; [|constructor]. now left.
  - cbn [settled calls]. repeat (apply Forall_app; split);
      auto using bookkeeping_expected; repeat constructor.
  - cbn [refreshed calls]. apply Forall_app. split; [exact H|]. repeat constructor.
  - destruct (elapse_calls d (pg s)) as [n Hn]. rewrite Hn.
    apply Forall_app. split; [exact H|].
    clear Hn. induction n; cbn [repeat]; constructor; auto. exact I.
Qed.

(** X8. The only requests the page ever issues are the refresh request and
    chat requests; every chat request carries a query that is not empty and
    has no white space at either end. *)
Theorem requests_are_well_formed (parseHTML : jsstring -> list node)
    (welcome : list node) (es : list event) :
  Forall expected_call (calls (pg (run parseHTML es (loaded welcome)))).
Proof.
  apply run_keeps with (I := fun s => Forall expected_call (calls (pg s))).
  - intros s1 ts s2. apply moves_expected_calls.
  - constructor.
Qed.

(** ** Bodies of other shapes *)

Lemma falsy_reply_text data m :
  get_member data (js "response") = Normal m -> truthy m = false ->
  reply_text data = Normal soft_failure_text.
Proof.
  intros Hg Ht. unfold reply_text. rewrite Hg. unfold or_else.
  destruct m as [v|]; [|reflexivity]. now rewrite Ht.
Qed.

Lemma replied_not_caught (parseHTML : jsstring -> list node) r data t (p : page) :
  parsed r = Normal data -> reply_text data = Normal t ->
  reaches_catch parseHTML r p = false.
Proof.
  intros Hr Ht. destruct (reaches_catch parseHTML r p) eqn:E; [|reflexivity].
  apply reaches_catch_iff in E as [[e He] | [d [e [Hd He]]]]; congruence.
Qed.

(** X9. A body that parses to anything but an object or [null] (an array,
    a string, a number, a boolean), and an object whose [response] is falsy
    ([null], [false], zero, the empty string, or missing), are soft
    failures: the ai Message is the fixed apology and nothing is reported
    on the console. *)
Theorem falsy_response_is_soft_failure (parseHTML : jsstring -> list node)
    (r : completion http_response) (p : page) (data : json) :
  parsed r = Normal data ->
  (data <> JNull -> is_object data = false ->
   submit_settle parseHTML r p = (Normal tt, replied parseHTML soft_failure_text p) /\
   reaches_catch parseHTML r p = false) /\
  (forall props,
     data = JObj props -> truthy (lookup (js "response") props) = false ->
     submit_settle parseHTML r p = (Normal tt, replied parseHTML soft_failure_text p) /\
     reaches_catch parseHTML r p = false).
Proof.
  intros Hr. split.
  - intros Hn Ho.
    assert (Ht : reply_text data = Normal soft_failure_text).
    { apply falsy_reply_text with (m := None); [|reflexivity].
      destruct data; try reflexivity; [congruence|discriminate]. }
    split; [now apply submit_settle_replies with (data := data)|].
    now apply replied_not_caught with (data := data) (t := soft_failure_text).
  - intros props -> Hf.
    assert (Ht : reply_text (JObj props) = Normal soft_failure_text)
      by now apply falsy_reply_text with (m := lookup (js "response") props).
    split; [now apply submit_settle_replies with (data := JObj props)|].
    now apply replied_not_caught with (data := JObj props) (t := soft_failure_text).
Qed.

Lemma falsy_response_is_soft_failure_witness :
  chatMessages (snd (submit_settle sample_parser array_response (waiting (js "hi")))) =
    [message_node sample_parser (js "hi") (js "user");
     message_node sample_parser soft_failure_text (js "ai")] /\
  chatMessages (snd (submit_settle sample_parser zero_response (waiting (js "hi")))) =
    [message_node sample_parser (js "hi") (js "user");
     message_node sample_parser soft_failure_text (js "ai")].
Proof.
  split.
  - destruct (proj1 (falsy_response_is_soft_failure sample_parser array_response
                       (waiting (js "hi")) eq_refl)) as [H _].
    + discriminate.
    + reflexivity.
    + rewrite H. vm_compute. reflexivity.
  - destruct (proj2 (falsy_response_is_soft_failure sample_parser zero_response
                       (waiting (js "hi")) eq_refl)
                    [(js "response", JNum {| num_zero := true; num_text := js "0" |})])
      as [H _].
    + reflexivity.
    + reflexivity.
    + rewrite H. vm_compute. reflexivity.
Defined.

(** X10. The refresh handler does not look at the status of the response
    either. A body that is [null], and a truthy [message] that cannot be
    converted to a string, give the toast "Failed to refresh data."; a body
    of any other shape whose [message] is falsy or missing gives
    "Data refreshed!". *)
Theorem refresh_bodies_of_other_shapes (r : completion http_response) (p : page) :
  (forall st st' b,
     refresh_settle (Normal {| status := st; json_body := b |}) p =
     refresh_settle (Normal {| status := st'; json_body := b |}) p) /\
  (parsed r = Normal JNull ->
   text_content (toast_kids (snd (refresh_settle r p))) = refresh_failed_text) /\
  (forall data v e,
     parsed r = Normal data ->
     get_member data (js "message") = Normal (Some v) ->
     truthy (Some v) = true -> to_string v = Throw e ->
     text_content (toast_kids (snd (refresh_settle r p))) = refresh_failed_text) /\
  (forall data m,
     parsed r = Normal data ->
     get_member data (js "message") = Normal m -> truthy m = false ->
     text_content (toast_kids (snd (refresh_settle r p))) = refreshed_text).
Proof.
  split; [intros; reflexivity|].
  destruct (refresh_settle_cases r p) as [t [H Ht]]. rewrite H. cbn [snd].
  unfold refreshed. cbn [toast_kids]. rewrite text_content_set.
  split; [|split].
  - intros Hr. rewrite Hr in Ht. exact Ht.
  - intros data v e Hr Hg Hv Hs. rewrite Hr in Ht. unfold toast_text in Ht.
    rewrite Hg in Ht. unfold or_else in Ht. rewrite Hv, Hs in Ht. exact Ht.
  - intros data m Hr Hg Hm. rewrite Hr in Ht. unfold toast_text in Ht.
    rewrite Hg in Ht. unfold or_else in Ht.
    destruct m as [v|]; [rewrite Hm in Ht|]; exact Ht.
Qed.

Lemma refresh_bodies_of_other_shapes_witness :
  text_content (toast_kids (snd (refresh_settle null_response (pg (loaded []))))) =
    refresh_failed_text /\
  text_content (toast_kids (snd (refresh_settle
     (Normal {| status := 200;
                json_body := Normal (JObj [(js "message", JObj [(js "toString", JNull)])]) |})
     (pg (loaded []))))) = refresh_failed_text /\
  text_content (toast_kids (snd (refresh_settle array_response (pg (loaded []))))) =
    refreshed_text.
Proof.
  split; [|split].
  - apply (proj1 (proj2 (refresh_bodies_of_other_shapes null_response (pg (loaded []))))).
    reflexivity.
  - apply (proj1 (proj2 (proj2 (refresh_bodies_of_other_shapes
             (Normal {| status := 200;
                        json_body := Normal (JObj [(js "message",
                                                    JObj [(js "toString", JNull)])]) |})
             (pg (loaded [])))))
             (JObj [(js "message", JObj [(js "toString", JNull)])])
             (JObj [(js "toString", JNull)]) TypeError); reflexivity.
  - apply (proj2 (proj2 (proj2 (refresh_bodies_of_other_shapes array_response
                                  (pg (loaded [])))))
             (JArr [JStr (js "Hello")]) None); reflexivity.
Defined.

(** X11. A [response] that is truthy but not a string is shown as its
    string conversion: in particular an object (one without a [toString]
    key of its own) is shown as the text "[object Object]", and [true] as
    "true". *)
Theorem structured_reply_is_stringified (parseHTML : jsstring -> list node)
    (r : completion http_response) (p : page) (props : list (jsstring * json)) :
  parsed r = Normal (JObj props) ->
  (forall v t,
     lookup (js "response") props = Some v ->
     truthy (Some v) = true -> to_string v = Normal t ->
     submit_settle parseHTML r p = (Normal tt, replied parseHTML t p)) /\
  (forall inner,
     lookup (js "response") props = Some (JObj inner) ->
     lookup (js "toString") inner = None ->
     submit_settle parseHTML r p =
       (Normal tt, replied parseHTML (js "[object Object]") p)) /\
  (lookup (js "response") props = Some (JBool true) ->
   submit_settle parseHTML r p = (Normal tt, replied parseHTML (js "true") p)).
Proof.
  intros Hr.
  assert (H : forall v t,
     lookup (js "response") props = Some v ->
     truthy (Some v) = true -> to_string v = Normal t ->
     submit_settle parseHTML r p = (Normal tt, replied parseHTML t p)).
  { intros v t Hl Hv Hs. apply submit_settle_replies with (data := JObj props); auto.
    unfold reply_text, get_member, or_else. now rewrite Hl, Hv. }
  split; [exact H|]. split.
  - intros inner Hl Hi. apply (H (JObj inner)); auto.
    cbn [to_string]. now rewrite Hi.
  - intros Hl. now apply (H (JBool true)).
Qed.

Lemma structured_reply_is_stringified_witness :
  chatMessages (snd (submit_settle sample_parser object_reply (waiting (js "hi")))) =
    [message_node sample_parser (js "hi") (js "user");
     message_node sample_parser (js "[object Object]") (js "ai")].
Proof.
  rewrite (proj1 (proj2 (structured_reply_is_stringified sample_parser object_reply
                           (waiting (js "hi"))
                           (props := [(js "response", JObj [(js "text", JStr (js "Hello"))])])
                           eq_refl))
             [(js "text", JStr (js "Hello"))]).
  - vm_compute. reflexivity.
  - reflexivity.
  - reflexivity.
Defined.
